(** * BaaS branding service: the interview-to-Golden-Circle pipeline

    A shallow embedding of [app/services/branding_service.py] (class
    [BrandingService]) and of the response models of
    [app/models/pydantic/brand_strategy.py], with the properties of the
    pipeline stated and proved over it.

    Conventions of the embedding.
    - A Python [str] is a Rocq [string].  The character functions below
      ([str.title], [str.lower]) agree with CPython on 7-bit ASCII text;
      characters above 127 are left unchanged and count as uncased (CPython
      consults the Unicode tables there, which are not modelled).  The
      statements that depend on these tables are made for the texts that
      [PyStr.isascii] accepts.
    - [bytes] is [list byte].
    - A [dict] with string keys is a [gmap string pyval].
    - Code that may raise returns an [outcome]; the values of [exn] are the
      instances of Python's [Exception] class, which is what the source's
      [except Exception] clauses catch.
    - Effects (reading the upload, calling Docling, calling the BAML client,
      logging) are recorded in a trace threaded through the monad [M]. *)

From Stdlib Require Import ZArith NArith Bool List Lia.
From Stdlib Require Import Strings.String Strings.Ascii Strings.Byte.
From stdpp Require Import base option gmap strings.

Set Warnings "-register-all".
Local Open Scope string_scope.
Local Open Scope Z_scope.

(** ** Python string primitives *)

Module PyStr.

Definition is_upper (c : ascii) : bool :=
  ((65 <=? N_of_ascii c) && (N_of_ascii c <=? 90))%N.

Definition is_lower (c : ascii) : bool :=
  ((97 <=? N_of_ascii c) && (N_of_ascii c <=? 122))%N.

(** [_PyUnicode_IsCased] restricted to ASCII. *)
Definition is_cased (c : ascii) : bool := is_upper c || is_lower c.

Definition to_lower (c : ascii) : ascii :=
  if is_upper c then ascii_of_N (N_of_ascii c + 32) else c.

(** [_PyUnicode_ToTitleFull] restricted to ASCII, where the title-case
    form of a letter is its upper-case form. *)
Definition to_title (c : ascii) : ascii :=
  if is_lower c then ascii_of_N (N_of_ascii c - 32) else c.

Fixpoint map (f : ascii -> ascii) (s : string) : string :=
  match s with
  | EmptyString => EmptyString
  | String c s' => String (f c) (map f s')
  end.

(** [str.lower]. *)
Definition lower (s : string) : string := map to_lower s.

(** [s[i:j]] for [0 <= i], [0 <= j]. *)
Definition slice (s : string) (i j : Z) : string :=
  substring (Z.to_nat i) (Z.to_nat (j - i)) s.

(** [s[i:]]. *)
Definition slice_from (s : string) (i : Z) : string :=
  slice s i (Z.of_nat (String.length s)).

(** [rfind_at c s i] is the absolute index of the last [c] in [s], whose
    first character has index [i]; -1 when there is none. *)
Fixpoint rfind_at (c : ascii) (s : string) (i : Z) : Z :=
  match s with
  | EmptyString => -1
  | String a s' =>
      let r := rfind_at c s' (i + 1) in
      if 0 <=? r then r else if Ascii.eqb a c then i else -1
  end.

(** [s.rfind(c)] for a one-character [c]. *)
Definition rfind (c : ascii) (s : string) : Z := rfind_at c s 0.

(** The scan of [str.replace(old, new)] for a non-empty [old]: [skip]
    counts the characters of a match that are still to be dropped. *)
Fixpoint replace_scan (old new : string) (skip : nat) (s : string) : string :=
  match s with
  | EmptyString => EmptyString
  | String c s' =>
      match skip with
      | S k => replace_scan old new k s'
      | O =>
          if String.prefix old s
          then new ++ replace_scan old new (Nat.pred (String.length old)) s'
          else String c (replace_scan old new O s')
      end
  end.

Fixpoint intersperse (new : string) (s : string) : string :=
  match s with
  | EmptyString => EmptyString
  | String c s' => String c (new ++ intersperse new s')
  end.

(** [s.replace(old, new)]: every non-overlapping occurrence of [old],
    found from the left, is replaced. *)
Definition replace (old new s : string) : string :=
  match old with
  | EmptyString => new ++ intersperse new s
  | String _ _ => replace_scan old new O s
  end.

(** The loop of [unicode_title] in CPython, with its [previous_is_cased]
    flag. *)
Fixpoint title_from (previous_is_cased : bool) (s : string) : string :=
  match s with
  | EmptyString => EmptyString
  | String c s' =>
      String (if previous_is_cased then to_lower c else to_title c)
             (title_from (is_cased c) s')
  end.

(** [s.title()]. *)
Definition title (s : string) : string := title_from false s.

(** [sub in s]. *)
Fixpoint contains (sub s : string) : bool :=
  String.prefix sub s ||
  match s with
  | EmptyString => false
  | String _ s' => contains sub s'
  end.

(** [c.isascii()]: a code point below 128. *)
Definition isascii_char (c : ascii) : bool := (N_of_ascii c <? 128)%N.

(** [s.isascii()]. *)
Fixpoint isascii (s : string) : bool :=
  match s with
  | EmptyString => true
  | String c s' => isascii_char c && isascii s'
  end.

End PyStr.

(** ** [os.path.splitext] (posixpath) *)

Module PosixPath.

Definition sep : ascii := "/"%char.
Definition extsep : ascii := "."%char.

(** The [while filenameIndex < dotIndex] loop of [genericpath._splitext]:
    [true] when it leaves through its [return], that is when a character
    other than [extsep] stands before the last dot. [n] is
    [dotIndex - filenameIndex]. *)
Fixpoint skip_leading_dots (p : string) (filenameIndex : Z) (n : nat) : bool :=
  match n with
  | O => false
  | S n' =>
      if negb (String.eqb (PyStr.slice p filenameIndex (filenameIndex + 1))
                          (String extsep EmptyString))
      then true
      else skip_leading_dots p (filenameIndex + 1) n'
  end.

(** [genericpath._splitext(p, sep, None, extsep)]. *)
Definition splitext (p : string) : string * string :=
  let sepIndex := PyStr.rfind sep p in
  let dotIndex := PyStr.rfind extsep p in
  if (sepIndex <? dotIndex) &&
     skip_leading_dots p (sepIndex + 1) (Z.to_nat (dotIndex - (sepIndex + 1)))
  then (PyStr.slice p 0 dotIndex, PyStr.slice_from p dotIndex)
  else (p, PyStr.slice p 0 0).

End PosixPath.

(** ** Brand name derivation *)

(** [BrandingService._extract_brand_name_from_filename]. *)
Definition _extract_brand_name_from_filename (filename : string) : string :=
  let base_name := fst (PosixPath.splitext filename) in
  PyStr.title
    (PyStr.replace "_" " "
       (PyStr.replace "-interview" EmptyString
          (PyStr.replace "_interview" EmptyString base_name))).

(** ** The derivation rule as the specification words it

    Section 4.1 step 3 of the specification: strip the extension, remove the
    substrings "_interview" and "-interview", replace underscores with
    spaces, title-case every word.  Each step is written here on the
    structure of the text, independently of the library calls above. *)

Module BrandNameSpec.

Fixpoint has_char (c : ascii) (s : string) : bool :=
  match s with
  | EmptyString => false
  | String a s' => Ascii.eqb a c || has_char c s'
  end.

(** The directory part (with its final slash) and the last component. *)
Fixpoint split_name (p : string) : string * string :=
  match p with
  | EmptyString => (EmptyString, EmptyString)
  | String c p' =>
      if has_char PosixPath.sep p'
      then let '(d, n) := split_name p' in (String c d, n)
      else if Ascii.eqb c PosixPath.sep then (String c EmptyString, p')
           else (EmptyString, String c p')
  end.

(** The leading dots of a component and what follows them. *)
Fixpoint span_dots (n : string) : string * string :=
  match n with
  | EmptyString => (EmptyString, EmptyString)
  | String c n' =>
      if Ascii.eqb c PosixPath.extsep
      then let '(d, r) := span_dots n' in (String c d, r)
      else (EmptyString, n)
  end.

(** The text before the last dot and the extension, when there is a dot. *)
Fixpoint split_last_dot (r : string) : option (string * string) :=
  match r with
  | EmptyString => None
  | String c r' =>
      match split_last_dot r' with
      | Some (stem, ext) => Some (String c stem, ext)
      | None => if Ascii.eqb c PosixPath.extsep then Some (EmptyString, r) else None
      end
  end.

(** Strip the extension: the extension starts at the last dot of the last
    path component, leading dots of the component apart. *)
Definition strip_extension (p : string) : string :=
  let '(d, n) := split_name p in
  let '(dots, rest) := span_dots n in
  match split_last_dot rest with
  | Some (stem, _) => d ++ dots ++ stem
  | None => p
  end.

(** Remove every occurrence of [pat], compared exactly. *)
Fixpoint remove_exact_scan (pat : string) (skip : nat) (s : string) : string :=
  match s with
  | EmptyString => EmptyString
  | String c s' =>
      match skip with
      | S k => remove_exact_scan pat k s'
      | O =>
          if String.prefix pat s
          then remove_exact_scan pat (Nat.pred (String.length pat)) s'
          else String c (remove_exact_scan pat O s')
      end
  end.

Definition remove_exact (pat s : string) : string := remove_exact_scan pat O s.

(** Remove every occurrence of the lower-case [pat], compared without
    regard to case. *)
Fixpoint remove_ci_scan (pat : string) (skip : nat) (s : string) : string :=
  match s with
  | EmptyString => EmptyString
  | String c s' =>
      match skip with
      | S k => remove_ci_scan pat k s'
      | O =>
          if String.prefix pat (PyStr.lower s)
          then remove_ci_scan pat (Nat.pred (String.length pat)) s'
          else String c (remove_ci_scan pat O s')
      end
  end.

Definition remove_ci (pat s : string) : string := remove_ci_scan pat O s.

Definition underscore_to_space (c : ascii) : ascii :=
  if Ascii.eqb c "_"%char then " "%char else c.

Definition underscores_to_spaces (s : string) : string :=
  PyStr.map underscore_to_space s.

Definition starts_with_letter (w : string) : bool :=
  match w with
  | EmptyString => false
  | String c _ => PyStr.is_cased c
  end.

(** The words of a text: its maximal runs of letters; every other
    character stands alone. *)
Fixpoint words (s : string) : list string :=
  match s with
  | EmptyString => []
  | String c s' =>
      if PyStr.is_cased c then
        match words s' with
        | w :: ws =>
            if starts_with_letter w then String c w :: ws
            else String c EmptyString :: w :: ws
        | [] => [String c EmptyString]
        end
      else String c EmptyString :: words s'
  end.

(** First letter upper case, the others lower case. *)
Definition capitalize (w : string) : string :=
  match w with
  | EmptyString => EmptyString
  | String c r => String (PyStr.to_title c) (PyStr.lower r)
  end.

Definition join (ws : list string) : string :=
  fold_right String.append EmptyString ws.

Definition title_words (s : string) : string := join (List.map capitalize (words s)).

(** The rule as the specification states it, markers removed
    case-insensitively. *)
Definition derive_case_insensitive (filename : string) : string :=
  title_words
    (underscores_to_spaces
       (remove_ci "-interview" (remove_ci "_interview" (strip_extension filename)))).

(** The same rule with the markers compared exactly. *)
Definition derive (filename : string) : string :=
  title_words
    (underscores_to_spaces
       (remove_exact "-interview" (remove_exact "_interview" (strip_extension filename)))).

End BrandNameSpec.

(** ** Python values, exceptions and effects *)

(** The JSON-like values that [model_dump()] and the service's dict
    literals are made of. *)
Inductive pyval : Type :=
| VNone
| VStr (s : string)
| VInt (n : Z)
| VList (l : list pyval)
| VDict (d : gmap string pyval).

Abbreviation dict := (gmap string pyval).

(** Instances of [Exception], by the classes the source's [except] clauses
    tell apart: [fastapi.HTTPException], [UnicodeDecodeError], and
    [OtherException] for an instance of any other class, with the name of
    its class and its message. *)
Inductive exn : Type :=
| HTTPException (status_code : Z) (detail : string)
| UnicodeDecodeError (reason : string)
| OtherException (type_name message : string).

Definition is_HTTPException (e : exn) : bool :=
  match e with HTTPException _ _ => true | _ => false end.

Definition is_UnicodeDecodeError (e : exn) : bool :=
  match e with UnicodeDecodeError _ => true | _ => false end.

Inductive outcome (A : Type) : Type :=
| Returns (a : A)
| Raises (e : exn).

Arguments Returns {A} a.
Arguments Raises {A} e.

Inductive level : Type := INFO | WARNING | ERROR.

Inductive log_subject : Type :=
| AboutValue (v : pyval)
| AboutExn (e : exn).

(** What a call does to the outside world, in order: [await
    interview_file.read()], [await interview_file.seek(offset)], the Docling
    conversion of the bytes, the BAML call on the markdown, and a line of
    the logger.  A [Log] keeps the fixed text of the f-string and the value
    or exception interpolated in it. *)
Inductive event : Type :=
| Read
| Seek (offset : Z)
| DoclingConvert (pdf_bytes : list byte)
| BamlExtract (markdown : string)
| Log (lvl : level) (text : string) (subject : log_subject).

(** Computations that may raise and that extend the trace. *)
Definition M (A : Type) : Type := list event -> outcome A * list event.

Definition ret {A} (a : A) : M A := fun t => (Returns a, t).

Definition raise {A} (e : exn) : M A := fun t => (Raises e, t).

Definition bind {A B} (m : M A) (k : A -> M B) : M B :=
  fun t =>
    match m t with
    | (Returns a, t') => k a t'
    | (Raises e, t') => (Raises e, t')
    end.

(** [try: body / except ... as e: handler e]; the handler rules on every
    exception, re-raising those its clauses re-raise. *)
Definition try_except {A} (body : M A) (handler : exn -> M A) : M A :=
  fun t =>
    match body t with
    | (Returns a, t') => (Returns a, t')
    | (Raises e, t') => handler e t'
    end.

(** A call to a collaborator: it is recorded, and its outcome is the
    collaborator's. *)
Definition call {A} (ev : event) (o : outcome A) : M A :=
  fun t => (o, (t ++ [ev])%list).

Definition log (lvl : level) (text : string) (subject : log_subject) : M unit :=
  call (Log lvl text subject) (Returns tt).

Declare Scope py_scope.
Delimit Scope py_scope with py.
Notation "x <- m ;; k" := (bind m (fun x => k))
  (at level 20, m at level 99, k at level 200, only parsing) : py_scope.
Notation "m ;; k" := (bind m (fun _ => k))
  (at level 100, k at level 200, right associativity, only parsing) : py_scope.
Local Open Scope py_scope.

(** ** The upload and the collaborators *)

(** [fastapi.UploadFile] as the service uses it: two attributes and the
    outcomes of its two awaited methods. *)
Record UploadFile : Type := {
  filename : option string;
  content_type : option string;
  read : outcome (list byte);
  seek : Z -> outcome unit
}.

(** The code outside the repository that the service calls.
    - [docling_to_markdown] is the body of the [try] of
      [_extract_text_from_pdf_bytes]: temporary file, [DocumentConverter],
      [export_to_markdown].
    - [ExtractGoldenCircleFromMarkdown] is the import of the BAML client,
      its call and [model_dump()] of the response.
    - [validation_error_text] is the message pydantic puts in its
      [ValidationError]. *)
Record Collaborators : Type := {
  docling_to_markdown : list byte -> outcome string;
  ExtractGoldenCircleFromMarkdown : string -> outcome dict;
  validation_error_text : dict -> string
}.

(** Truth value of an [Optional[str]]. *)
Definition truthy (o : option string) : bool :=
  match o with
  | Some (String _ _) => true
  | _ => false
  end.

(** [x in l] for an [Optional[str]] and a list of [str]. *)
Definition py_in (x : option string) (l : list string) : bool :=
  match x with
  | Some s => existsb (String.eqb s) l
  | None => false
  end.

Fixpoint join_with (sep : string) (l : list string) : string :=
  match l with
  | [] => EmptyString
  | [s] => s
  | s :: l' => s ++ sep ++ join_with sep l'
  end.

(** [repr] of a list of plain strings, as an f-string prints it. *)
Definition repr_list (l : list string) : string :=
  "[" ++ join_with ", " (List.map (fun s => "'" ++ s ++ "'") l) ++ "]".

(** ** Response models ([brand_strategy.py]) *)

Record GoldenCircle : Type := {
  why : string;
  how : string;
  what : string
}.

Record GoldenCircleResponse : Type := {
  brand_name : string;
  golden_circle : GoldenCircle
}.

(** pydantic's validation of a [str] field: present and a string. *)
Definition validate_str (v : option pyval) : option string :=
  match v with
  | Some (VStr s) => Some s
  | _ => None
  end.

Definition validate_GoldenCircle (v : option pyval) : option GoldenCircle :=
  match v with
  | Some (VDict d) =>
      match validate_str (d !! "why"), validate_str (d !! "how"),
            validate_str (d !! "what") with
      | Some w, Some h, Some x => Some {| why := w; how := h; what := x |}
      | _, _, _ => None
      end
  | _ => None
  end.

(** The constructor of [GoldenCircleResponse] applied to the unpacked dict:
    unknown keys are ignored, a missing or ill-typed field raises
    [ValidationError]. *)
Definition GoldenCircleResponse_init (c : Collaborators) (data : dict)
  : M GoldenCircleResponse :=
  match validate_str (data !! "brand_name"),
        validate_GoldenCircle (data !! "golden_circle") with
  | Some b, Some g => ret {| brand_name := b; golden_circle := g |}
  | _, _ => raise (OtherException "ValidationError" (validation_error_text c data))
  end.

(** ** [BrandingService] *)

Definition allowed_types : list string := ["application/pdf"].

Definition why_template (brand_name : string) : string :=
  "We believe that businesses like " ++ brand_name ++
  " should create meaningful impact by solving real problems and empowering their customers to achieve their goals.".

Definition how_template : string :=
  "Our approach focuses on innovative solutions and a clear process: we listen, iterate, and deliver with high quality standards and reliable service. This method builds genuine relationships with customers through transparency.".

Definition what_template (brand_name : string) : string :=
  brand_name ++
  " provides professional services and solutions that help clients streamline their operations and grow their business effectively.".

(** [BrandingService._process_interview_for_golden_circle]. *)
Definition _process_interview_for_golden_circle (content brand_name : string)
  : M dict :=
  let golden_circle : dict :=
    {[ "brand_name" := VStr brand_name;
       "golden_circle" :=
         VDict {[ "why" := VStr (why_template brand_name);
                  "how" := VStr how_template;
                  "what" := VStr (what_template brand_name) ]} ]} in
  ret golden_circle.

(** [BrandingService._extract_text_from_pdf_bytes]. *)
Definition _extract_text_from_pdf_bytes (c : Collaborators) (pdf_bytes : list byte)
  : M string :=
  try_except
    (call (DoclingConvert pdf_bytes) (docling_to_markdown c pdf_bytes))
    (fun e =>
       match e with
       | HTTPException _ _ => raise e
       | _ =>
           log ERROR "Docling PDF extraction failed: " (AboutExn e) ;;
           raise (HTTPException 400
                    "Failed to extract text from PDF. Ensure the PDF is readable.")
       end).

(** [dict.get(key)]. *)
Definition dict_get (d : dict) (key : string) : pyval :=
  match d !! key with
  | Some v => v
  | None => VNone
  end.

(** [brand_name or self._extract_brand_name_from_filename(filename)]. *)
Definition brand_name_or_filename (brand_name : option string) (filename : string)
  : string :=
  match brand_name with
  | Some (String c b) => String c b
  | _ => _extract_brand_name_from_filename filename
  end.

(** The inner [try] of [create_golden_circle_from_interview]: the BAML
    client first, the heuristic generator on any exception. *)
Definition extract_or_fall_back (c : Collaborators) (extracted_text : string)
    (filename : string) (brand_name : option string) : M dict :=
  try_except
    (golden_circle <- call (BamlExtract extracted_text)
                           (ExtractGoldenCircleFromMarkdown c extracted_text) ;;
     ret (match brand_name with
          | Some (String ch b) => <["brand_name" := VStr (String ch b)]> golden_circle
          | _ => golden_circle
          end))
    (fun e =>
       log WARNING
         "BAML Golden Circle extraction failed. Falling back to heuristic generation."
         (AboutExn e) ;;
       _process_interview_for_golden_circle extracted_text
         (brand_name_or_filename brand_name filename)).

(** The body of the outer [try] of [create_golden_circle_from_interview]. *)
Definition create_golden_circle_from_interview_try (c : Collaborators)
    (interview_file : UploadFile) (brand_name : option string) : M dict :=
  match filename interview_file with
  | Some (String ch f) =>
      if negb (py_in (content_type interview_file) allowed_types)
      then raise (HTTPException 400
                    ("Unsupported file type. Allowed types: " ++ repr_list allowed_types))
      else
        pdf_bytes <- call Read (read interview_file) ;;
        call (Seek 0) (seek interview_file 0) ;;
        extracted_text <- _extract_text_from_pdf_bytes c pdf_bytes ;;
        golden_circle <- extract_or_fall_back c extracted_text (String ch f) brand_name ;;
        log INFO "Successfully generated Golden Circle for "
            (AboutValue (dict_get golden_circle "brand_name")) ;;
        ret golden_circle
  | _ => raise (HTTPException 400 "No file provided")
  end.

(** Its [except] clauses, in order. *)
Definition create_golden_circle_from_interview_except (e : exn) : M dict :=
  match e with
  | HTTPException _ _ => raise e
  | UnicodeDecodeError _ =>
      raise (HTTPException 400 "File encoding not supported. Please use UTF-8.")
  | OtherException _ _ =>
      log ERROR "Error processing interview file for Golden Circle: " (AboutExn e) ;;
      raise (HTTPException 500 "Internal server error processing file")
  end.

(** [BrandingService.create_golden_circle_from_interview]. *)
Definition create_golden_circle_from_interview (c : Collaborators)
    (interview_file : UploadFile) (brand_name : option string) : M dict :=
  try_except
    (create_golden_circle_from_interview_try c interview_file brand_name)
    create_golden_circle_from_interview_except.

(** The [except] clauses of [create_golden_circle_response]. *)
Definition create_golden_circle_response_except (e : exn) : M GoldenCircleResponse :=
  match e with
  | HTTPException _ _ => raise e
  | _ =>
      log ERROR "Unexpected error in Golden Circle creation: " (AboutExn e) ;;
      raise (HTTPException 500
               "An unexpected error occurred while processing the Golden Circle request")
  end.

(** [BrandingService.create_golden_circle_response]. *)
Definition create_golden_circle_response (c : Collaborators)
    (interview_file : UploadFile) (brand_name : option string)
  : M GoldenCircleResponse :=
  try_except
    (golden_circle_data <- create_golden_circle_from_interview c interview_file brand_name ;;
     GoldenCircleResponse_init c golden_circle_data)
    create_golden_circle_response_except.

(** [BrandingService.get_health_status]. *)
Definition get_health_status (c : Collaborators) : M dict :=
  ret {[ "status" := VStr "healthy"; "service" := VStr "branding" ]}.

(** [BrandingService.get_supported_file_formats]. *)
Definition get_supported_file_formats (c : Collaborators) : M dict :=
  ret
  {[ "supported_formats" :=
       VList [ VDict {[ "extension" := VStr ".pdf";
                        "mime_type" := VStr "application/pdf";
                        "description" := VStr "PDF documents" ]} ];
     "max_file_size" := VStr "10MB";
     "encoding" := VStr "UTF-8" ]}.

(** ** Vocabulary of the statements *)

(** The position of the last [c] of [s], counted from its first character. *)
Fixpoint last_pos (c : ascii) (s : string) : nat :=
  match s with
  | EmptyString => O
  | String _ s' => if BrandNameSpec.has_char c s' then S (last_pos c s') else O
  end.

(** Nothing but dots. *)
Fixpoint all_dots (s : string) : bool :=
  match s with
  | EmptyString => true
  | String c s' => Ascii.eqb c PosixPath.extsep && all_dots s'
  end.

(** A component stripped of its leading dots does not start with one. *)
Definition starts_without_dot (r : string) : Prop :=
  match r with
  | EmptyString => True
  | String c _ => Ascii.eqb c PosixPath.extsep = false
  end.

(** The dict literal of [_process_interview_for_golden_circle]. *)
Definition fallback_dict (brand_name : string) : dict :=
  {[ "brand_name" := VStr brand_name;
     "golden_circle" :=
       VDict {[ "why" := VStr (why_template brand_name);
                "how" := VStr how_template;
                "what" := VStr (what_template brand_name) ]} ]}.

(** The assignment under [if brand_name:] after the BAML call. *)
Definition override_brand_name (override : option string) (d : dict) : dict :=
  match override with
  | Some (String ch b) => <["brand_name" := VStr (String ch b)]> d
  | _ => d
  end.

(** The fixed part of the warning logged before falling back. *)
Definition warning_text : string :=
  "BAML Golden Circle extraction failed. Falling back to heuristic generation.".

(** The details of the errors as the caller sees them. *)
Definition extraction_failed_detail : string :=
  "Failed to extract text from PDF. Ensure the PDF is readable.".

Definition server_fault_detail : string := "Internal server error processing file".

Definition assembly_fault_detail : string :=
  "An unexpected error occurred while processing the Golden Circle request".

(** The BAML client fails at every call. *)
Definition unavailable (c : Collaborators) : Prop :=
  forall text, exists e, ExtractGoldenCircleFromMarkdown c text = Raises e.

(** ** Uploads and collaborators of the unit tests *)

Module Scenario.

Definition pdf_payload : list byte := [x25; x50; x44; x46]%byte.

Definition interview_text : string :=
  "Q: What is your mission? A: To help businesses succeed.".

(** An upload as the unit tests mock it. *)
Definition upload (name mime : string) : UploadFile := {|
  filename := Some name;
  content_type := Some mime;
  read := Returns pdf_payload;
  seek := fun _ => Returns tt
|}.

(** An upload whose [read] raises. *)
Definition unreadable_upload (e : exn) : UploadFile := {|
  filename := Some "test_interview.pdf";
  content_type := Some "application/pdf";
  read := Raises e;
  seek := fun _ => Returns tt
|}.

(** Docling answers, the BAML client raises [e]. *)
Definition failing_client (e : exn) : Collaborators := {|
  docling_to_markdown := fun _ => Returns interview_text;
  ExtractGoldenCircleFromMarkdown := fun _ => Raises e;
  validation_error_text := fun _ => "1 validation error for GoldenCircleResponse"
|}.

(** Docling answers, the BAML client cannot be imported. *)
Definition offline : Collaborators :=
  failing_client
    (OtherException "ModuleNotFoundError" "No module named 'app.models.BAML'").

(** Docling answers and the BAML client returns [answer]. *)
Definition online (answer : dict) : Collaborators := {|
  docling_to_markdown := fun _ => Returns interview_text;
  ExtractGoldenCircleFromMarkdown := fun _ => Returns answer;
  validation_error_text := fun _ => "1 validation error for GoldenCircleResponse"
|}.

(** The conversion raises [e]. *)
Definition failing_docling (e : exn) : Collaborators := {|
  docling_to_markdown := fun _ => Raises e;
  ExtractGoldenCircleFromMarkdown := fun _ =>
    Raises (OtherException "ModuleNotFoundError" "No module named 'app.models.BAML'");
  validation_error_text := fun _ => "1 validation error for GoldenCircleResponse"
|}.

Definition baml_answer : dict :=
  {[ "brand_name" := VStr "Inferred Name";
     "golden_circle" :=
       VDict {[ "why" := VStr "To help businesses succeed.";
                "how" := VStr "By listening.";
                "what" := VStr "Consulting." ]} ]}.

(** What a BAML client that quotes the markdown as [why] answers. *)
Definition quoting_answer (markdown : string) : dict :=
  {[ "brand_name" := VStr "Quoted";
     "golden_circle" :=
       VDict {[ "why" := VStr markdown;
                "how" := VStr "By listening.";
                "what" := VStr "Consulting." ]} ]}.

(** Docling answers [text]; the BAML client is a function of the markdown. *)
Definition quoting (text : string) : Collaborators := {|
  docling_to_markdown := fun _ => Returns text;
  ExtractGoldenCircleFromMarkdown := fun markdown => Returns (quoting_answer markdown);
  validation_error_text := fun _ => "1 validation error for GoldenCircleResponse"
|}.

End Scenario.

(** ** [str.split] without arguments *)

Module PySplit.

(** [Py_UNICODE_ISSPACE] on the code points below 256: tab to carriage
    return, the four separators 28 to 31, the space, the next-line
    character 133 and the no-break space 160. *)
Definition isspace (c : ascii) : bool :=
  (((9 <=? N_of_ascii c) && (N_of_ascii c <=? 13)) ||
   ((28 <=? N_of_ascii c) && (N_of_ascii c <=? 32)) ||
   (N_of_ascii c =? 133) || (N_of_ascii c =? 160))%N.

(** The character [c] joins the word being read, or starts one. *)
Definition push (word : option string) (c : ascii) : string :=
  match word with
  | Some w => w ++ String c EmptyString
  | None => String c EmptyString
  end.

(** The loop of [split_whitespace] in CPython: white space closes the word
    being read, if there is one; any other character extends it. *)
Fixpoint split_scan (word : option string) (s : string) : list string :=
  match s with
  | EmptyString =>
      match word with
      | Some w => [w]
      | None => []
      end
  | String c s' =>
      if isspace c
      then match word with
           | Some w => w :: split_scan None s'
           | None => split_scan None s'
           end
      else split_scan (Some (push word c)) s'
  end.

(** [s.split()]. *)
Definition split (s : string) : list string := split_scan None s.

Fixpoint all_space (s : string) : bool :=
  match s with
  | EmptyString => true
  | String c s' => isspace c && all_space s'
  end.

Fixpoint no_space (s : string) : bool :=
  match s with
  | EmptyString => true
  | String c s' => negb (isspace c) && no_space s'
  end.

End PySplit.

(** ** The brand identity pipeline of [BrandingService] *)

(** [len(content.split())]. *)
Definition word_count (content : string) : Z :=
  Z.of_nat (List.length (PySplit.split content)).

(** [content[:200] + "..." if len(content) > 200 else content]. *)
Definition content_preview (content : string) : string :=
  if 200 <? Z.of_nat (String.length content)
  then PyStr.slice content 0 200 ++ "..."
  else content.

(** [BrandingService._process_interview_content]. *)
Definition _process_interview_content (content brand_name : string) : M dict :=
  let word_count := word_count content in
  let brand_identity : dict :=
    {[ "brand_name" := VStr brand_name;
       "interview_summary" :=
         VDict {[ "word_count" := VInt word_count;
                  "content_preview" := VStr (content_preview content) ]};
       "brand_attributes" :=
         VDict {[ "tone" := VStr "professional";
                  "values" := VList [VStr "innovation"; VStr "quality";
                                     VStr "customer-focus"];
                  "target_audience" := VStr "business professionals";
                  "brand_personality" := VStr "modern and approachable" ]};
       "visual_guidelines" :=
         VDict {[ "primary_colors" := VList [VStr "#2E3440"; VStr "#5E81AC"];
                  "font_suggestions" := VList [VStr "Helvetica"; VStr "Open Sans"];
                  "style" := VStr "minimalist" ]};
       "messaging" :=
         VDict {[ "tagline" := VStr "Innovation meets excellence";
                  "value_proposition" :=
                    VStr "Delivering quality solutions for modern businesses" ]} ]} in
  ret brand_identity.

(** The body of the [try] of [create_brand_identity_from_interview]. *)
Definition create_brand_identity_from_interview_try (c : Collaborators)
    (interview_file : UploadFile) (brand_name : option string) : M dict :=
  match filename interview_file with
  | Some (String ch f) =>
      if negb (py_in (content_type interview_file) allowed_types)
      then raise (HTTPException 400
                    ("Unsupported file type. Allowed types: " ++ repr_list allowed_types))
      else
        pdf_bytes <- call Read (read interview_file) ;;
        call (Seek 0) (seek interview_file 0) ;;
        extracted_text <- _extract_text_from_pdf_bytes c pdf_bytes ;;
        brand_identity <- _process_interview_content extracted_text
                            (brand_name_or_filename brand_name (String ch f)) ;;
        log INFO "Successfully generated brand identity for "
            (AboutValue (dict_get brand_identity "brand_name")) ;;
        ret brand_identity
  | _ => raise (HTTPException 400 "No file provided")
  end.

(** Its [except] clauses, in order. *)
Definition create_brand_identity_from_interview_except (e : exn) : M dict :=
  match e with
  | HTTPException _ _ => raise e
  | UnicodeDecodeError _ =>
      raise (HTTPException 400 "File encoding not supported. Please use UTF-8.")
  | OtherException _ _ =>
      log ERROR "Error processing interview file: " (AboutExn e) ;;
      raise (HTTPException 500 "Internal server error processing file")
  end.

(** [BrandingService.create_brand_identity_from_interview]. *)
Definition create_brand_identity_from_interview (c : Collaborators)
    (interview_file : UploadFile) (brand_name : option string) : M dict :=
  try_except
    (create_brand_identity_from_interview_try c interview_file brand_name)
    create_brand_identity_from_interview_except.

(** ** The strategy models ([brand_strategy.py]) *)

Module Strategy.

Record BrandPositioning : Type := {
  value_proposition : string;
  target_audience : string;
  competitive_advantage : string;
  brand_promise : string
}.

Record BrandValues : Type := {
  core_values : list string;
  mission_statement : string;
  vision_statement : string
}.

Record BrandStrategy : Type := {
  golden_circle : GoldenCircle;
  positioning : BrandPositioning;
  values : BrandValues
}.

Record BrandStrategyResponse : Type := {
  brand_name : string;
  strategy : BrandStrategy
}.

(** pydantic's validation of a [List[str]] field. *)
Fixpoint validate_strs (l : list pyval) : option (list string) :=
  match l with
  | [] => Some []
  | VStr s :: l' =>
      match validate_strs l' with
      | Some r => Some (s :: r)
      | None => None
      end
  | _ :: _ => None
  end.

Definition validate_list_str (v : option pyval) : option (list string) :=
  match v with
  | Some (VList l) => validate_strs l
  | _ => None
  end.

Definition validate_BrandPositioning (v : option pyval) : option BrandPositioning :=
  match v with
  | Some (VDict d) =>
      match validate_str (d !! "value_proposition"),
            validate_str (d !! "target_audience"),
            validate_str (d !! "competitive_advantage"),
            validate_str (d !! "brand_promise") with
      | Some p, Some a, Some k, Some b =>
          Some {| value_proposition := p; target_audience := a;
                  competitive_advantage := k; brand_promise := b |}
      | _, _, _, _ => None
      end
  | _ => None
  end.

Definition validate_BrandValues (v : option pyval) : option BrandValues :=
  match v with
  | Some (VDict d) =>
      match validate_list_str (d !! "core_values"),
            validate_str (d !! "mission_statement"),
            validate_str (d !! "vision_statement") with
      | Some k, Some m, Some w =>
          Some {| core_values := k; mission_statement := m; vision_statement := w |}
      | _, _, _ => None
      end
  | _ => None
  end.

Definition validate_BrandStrategy (v : option pyval) : option BrandStrategy :=
  match v with
  | Some (VDict d) =>
      match validate_GoldenCircle (d !! "golden_circle"),
            validate_BrandPositioning (d !! "positioning"),
            validate_BrandValues (d !! "values") with
      | Some g, Some p, Some w =>
          Some {| golden_circle := g; positioning := p; values := w |}
      | _, _, _ => None
      end
  | _ => None
  end.

(** The constructor of [BrandStrategyResponse] applied to the unpacked
    dict: unknown keys are ignored, a missing or ill-typed field raises
    [ValidationError]. *)
Definition BrandStrategyResponse_init (c : Collaborators) (data : dict)
  : M BrandStrategyResponse :=
  match validate_str (data !! "brand_name"),
        validate_BrandStrategy (data !! "strategy") with
  | Some b, Some s => ret {| brand_name := b; strategy := s |}
  | _, _ => raise (OtherException "ValidationError" (validation_error_text c data))
  end.

End Strategy.

(** The [except] clauses of [create_brand_identity_response]. *)
Definition create_brand_identity_response_except (e : exn)
  : M Strategy.BrandStrategyResponse :=
  match e with
  | HTTPException _ _ => raise e
  | _ =>
      log ERROR "Unexpected error in brand identity creation: " (AboutExn e) ;;
      raise (HTTPException 500
               "An unexpected error occurred while processing the brand identity request")
  end.

(** [BrandingService.create_brand_identity_response]. *)
Definition create_brand_identity_response (c : Collaborators)
    (interview_file : UploadFile) (brand_name : option string)
  : M Strategy.BrandStrategyResponse :=
  try_except
    (brand_identity_data <- create_brand_identity_from_interview c interview_file brand_name ;;
     Strategy.BrandStrategyResponse_init c brand_identity_data)
    create_brand_identity_response_except.

(** ** Vocabulary of the further statements *)

(** The events that are calls to a collaborator, as opposed to log lines. *)
Definition is_call (ev : event) : bool :=
  match ev with
  | Log _ _ _ => false
  | _ => true
  end.

Definition is_log (lvl : level) (ev : event) : bool :=
  match ev, lvl with
  | Log INFO _ _, INFO => true
  | Log WARNING _ _, WARNING => true
  | Log ERROR _ _, ERROR => true
  | _, _ => false
  end.

(** What a computation adds to the trace when it starts from an empty one. *)
Definition added {A} (m : M A) : list event := snd (m []).

(** A computation that only appends to the trace and does not look at it. *)
Definition append_only {A} (m : M A) : Prop :=
  forall t, m t = (fst (m []), (t ++ added m)%list).

Definition identity_fault_detail : string :=
  "An unexpected error occurred while processing the brand identity request".

(** The details the service itself puts in an [HTTPException]. *)
Definition service_details : list (Z * string) :=
  [ (400, "No file provided");
    (400, "Unsupported file type. Allowed types: ['application/pdf']");
    (400, "Failed to extract text from PDF. Ensure the PDF is readable.");
    (400, "File encoding not supported. Please use UTF-8.");
    (500, "Internal server error processing file");
    (500, "An unexpected error occurred while processing the Golden Circle request");
    (500, "An unexpected error occurred while processing the brand identity request") ].

(** No collaborator of the upload path raises an [HTTPException] of its
    own. *)
Definition no_foreign_http_error (c : Collaborators) (interview_file : UploadFile)
  : Prop :=
  (forall e, read interview_file = Raises e -> is_HTTPException e = false) /\
  (forall e, seek interview_file 0 = Raises e -> is_HTTPException e = false) /\
  (forall b e, docling_to_markdown c b = Raises e -> is_HTTPException e = false).

(** An outcome that, when it is an exception, is an [HTTPException]. *)
Definition raises_only_http {A} (r : outcome A) : Prop :=
  match r with
  | Returns _ => True
  | Raises e => is_HTTPException e = true
  end.

(** An outcome that, when it is an exception, is an [HTTPException] with
    one of the service's own statuses and details. *)
Definition raises_service_error {A} (r : outcome A) : Prop :=
  match r with
  | Returns _ => True
  | Raises (HTTPException status detail) => In (status, detail) service_details
  | Raises _ => False
  end.

(** The MIME types that a formats dict lists, as the unit test reads them:
    [[fmt["mime_type"] for fmt in result["supported_formats"]]]. *)
Definition mime_types_of (formats : dict) : list string :=
  match formats !! "supported_formats" with
  | Some (VList l) =>
      flat_map (fun fmt =>
                  match fmt with
                  | VDict d =>
                      match d !! "mime_type" with
                      | Some (VStr s) => [s]
                      | _ => []
                      end
                  | _ => []
                  end) l
  | _ => []
  end.

(** The MIME types that [get_supported_file_formats] advertises. *)
Definition advertised_mime_types (c : Collaborators) : list string :=
  match fst (get_supported_file_formats c []) with
  | Returns formats => mime_types_of formats
  | Raises _ => []
  end.


(** * Properties *)

Local Arguments String.append !_ _ /.
#[local] Arguments why_template : simpl never.
#[local] Arguments what_template : simpl never.
#[local] Arguments how_template : simpl never.

(** ** Facts about the string primitives *)

Section StringFacts.

Import PyStr BrandNameSpec.

Lemma append_empty_r (s : string) : s ++ EmptyString = s.
Proof. induction s as [|c s IH]; simpl; [reflexivity | now rewrite IH]. Qed.

Lemma append_assoc (a b c : string) : (a ++ b) ++ c = a ++ (b ++ c).
Proof. induction a as [|x a IH]; simpl; [reflexivity | now rewrite IH]. Qed.

Lemma length_append (a b : string) :
  String.length (a ++ b) = (String.length a + String.length b)%nat.
Proof. induction a as [|x a IH]; simpl; [reflexivity | now rewrite IH]. Qed.

Lemma to_lower_uncased (c : ascii) : is_cased c = false -> to_lower c = c.
Proof.
  unfold is_cased, to_lower. intros H.
  apply orb_false_iff in H as [-> _]. reflexivity.
Qed.

Lemma to_title_uncased (c : ascii) : is_cased c = false -> to_title c = c.
Proof.
  unfold is_cased, to_title. intros H.
  apply orb_false_iff in H as [_ ->]. reflexivity.
Qed.

(** [str.title] capitalizes the words: the flag of the loop is set exactly
    inside a run of letters. *)
Lemma title_from_words (s : string) :
  title_from false s = join (List.map capitalize (words s)) /\
  title_from true s =
    match words s with
    | w :: ws =>
        if starts_with_letter w
        then lower w ++ join (List.map capitalize ws)
        else join (List.map capitalize (w :: ws))
    | [] => EmptyString
    end.
Proof.
  induction s as [|c s [IHf IHt]]; [split; reflexivity|].
  cbn [title_from words].
  destruct (is_cased c) eqn:Hc.
  - rewrite IHt. destruct (words s) as [|w ws].
    + cbn. rewrite Hc. split; reflexivity.
    + destruct (starts_with_letter w) eqn:Hw; cbn; rewrite ?Hc, ?Hw; split; reflexivity.
  - rewrite IHf, (to_lower_uncased c Hc), (to_title_uncased c Hc).
    cbn. rewrite Hc, (to_title_uncased c Hc). split; reflexivity.
Qed.

Lemma title_title_words (s : string) : title s = title_words s.
Proof. apply title_from_words. Qed.

Lemma replace_scan_remove (old : string) (skip : nat) (s : string) :
  replace_scan old EmptyString skip s = remove_exact_scan old skip s.
Proof.
  revert skip. induction s as [|c s IH]; intros skip; [reflexivity|].
  cbn [replace_scan remove_exact_scan].
  destruct skip; [|apply IH].
  destruct (String.prefix old (String c s)); cbn; now rewrite IH.
Qed.

Lemma replace_remove_exact (a : ascii) (old s : string) :
  replace (String a old) EmptyString s = remove_exact (String a old) s.
Proof. apply replace_scan_remove. Qed.

Lemma replace_underscores (s : string) :
  replace "_" " " s = underscores_to_spaces s.
Proof.
  unfold replace, underscores_to_spaces.
  induction s as [|c s IH]; [reflexivity|].
  cbn [replace_scan PyStr.map String.prefix String.length Nat.pred].
  unfold underscore_to_space.
  destruct (ascii_dec "_" c) as [<-|Hne].
  - assert (String.prefix EmptyString s = true) as Hp by (destruct s; reflexivity).
    cbn. rewrite Hp. now rewrite IH.
  - assert (Ascii.eqb c "_" = false) as -> by (apply Ascii.eqb_neq; congruence).
    now rewrite IH.
Qed.

End StringFacts.

Section SplitextFacts.
Import PyStr BrandNameSpec PosixPath.

Abbreviation len := String.length.

Lemma rfind_at_last_pos (c : ascii) (s : string) (i : Z) :
  0 <= i ->
  rfind_at c s i = if has_char c s then i + Z.of_nat (last_pos c s) else -1.
Proof.
  revert i. induction s as [|a s IH]; intros i Hi; [reflexivity|].
  cbn [rfind_at has_char last_pos]. rewrite IH by lia.
  destruct (has_char c s).
  - rewrite orb_true_r.
    destruct (0 <=? i + 1 + Z.of_nat (last_pos c s)) eqn:E; lia.
  - rewrite orb_false_r. cbn. destruct (Ascii.eqb a c); lia.
Qed.

Lemma rfind_last_pos (c : ascii) (s : string) :
  rfind c s = if has_char c s then Z.of_nat (last_pos c s) else -1.
Proof. unfold rfind. rewrite rfind_at_last_pos by lia. destruct (has_char c s); lia. Qed.

Lemma last_pos_lt (c : ascii) (s : string) :
  has_char c s = true -> (last_pos c s < len s)%nat.
Proof.
  induction s as [|a s IH]; cbn; [discriminate|].
  destruct (has_char c s); intros _; [specialize (IH eq_refl)|]; lia.
Qed.

Lemma has_char_append (c : ascii) (a b : string) :
  has_char c (a ++ b) = has_char c a || has_char c b.
Proof. induction a as [|x a IH]; cbn; [reflexivity|]. now rewrite IH, orb_assoc. Qed.

Lemma last_pos_append (c : ascii) (a b : string) :
  last_pos c (a ++ b) =
    if has_char c b then (len a + last_pos c b)%nat else last_pos c a.
Proof.
  induction a as [|x a IH]; cbn.
  - destruct (has_char c b) eqn:E; [reflexivity|].
    destruct b as [|y b]; [reflexivity|]. cbn in *.
    apply orb_false_iff in E as [_ ->]. reflexivity.
  - rewrite has_char_append, IH. destruct (has_char c b).
    + now rewrite orb_true_r.
    + now rewrite orb_false_r.
Qed.

Lemma substring_append_skip (a s : string) (m : nat) :
  substring (len a) m (a ++ s) = substring 0 m s.
Proof. induction a as [|x a IH]; cbn; [reflexivity | apply IH]. Qed.

Lemma substring_append_keep (a b : string) (m : nat) :
  substring 0 (len a + m) (a ++ b) = a ++ substring 0 m b.
Proof. induction a as [|x a IH]; cbn; [reflexivity | now rewrite IH]. Qed.

Lemma substring_0_0 (s : string) : substring 0 0 s = EmptyString.
Proof. now destruct s. Qed.

Lemma split_name_spec (p : string) :
  p = fst (split_name p) ++ snd (split_name p) /\
  has_char sep (snd (split_name p)) = false /\
  rfind sep p + 1 = Z.of_nat (len (fst (split_name p))).
Proof.
  induction p as [|c p (IHp & IHn & IHr)]; [repeat split|].
  rewrite rfind_last_pos in *. cbn [split_name has_char last_pos].
  destruct (has_char sep p) eqn:Hp.
  - destruct (split_name p) as [d n]. cbn in *. rewrite orb_true_r.
    repeat split; [congruence | assumption | lia].
  - destruct (Ascii.eqb c sep) eqn:Hc; cbn; rewrite ?Hc, ?Hp; repeat split.
Qed.

Lemma span_dots_spec (n : string) :
  n = fst (span_dots n) ++ snd (span_dots n) /\
  all_dots (fst (span_dots n)) = true /\
  starts_without_dot (snd (span_dots n)).
Proof.
  induction n as [|c n (IHn & IHd & IHr)]; [repeat split|].
  cbn [span_dots]. destruct (Ascii.eqb c extsep) eqn:Hc.
  - destruct (span_dots n) as [d r]. cbn in *. rewrite Hc.
    repeat split; [congruence | assumption | assumption].
  - cbn. repeat split. assumption.
Qed.

Lemma split_last_dot_spec (r : string) :
  split_last_dot r =
    if has_char extsep r
    then Some (substring 0 (last_pos extsep r) r,
               substring (last_pos extsep r) (len r - last_pos extsep r) r)
    else None.
Proof.
  induction r as [|c r IH]; [reflexivity|].
  cbn [split_last_dot has_char last_pos]. rewrite IH.
  destruct (has_char extsep r) eqn:Hr.
  - rewrite orb_true_r. cbn [substring String.length].
    pose proof (last_pos_lt _ _ Hr).
    replace (S (len r) - S (last_pos extsep r))%nat
      with (len r - last_pos extsep r)%nat by lia.
    reflexivity.
  - rewrite orb_false_r. destruct (Ascii.eqb c extsep); [|reflexivity].
    cbn. do 3 f_equal.
    clear. induction r as [|x r IH]; cbn; [reflexivity | now rewrite <- IH].
Qed.

(** The loop stays inside the leading dots. *)
Lemma skip_leading_dots_inside (d dots rest : string) (n : nat) :
  all_dots dots = true -> (n <= len dots)%nat ->
  skip_leading_dots (d ++ dots ++ rest) (Z.of_nat (len d)) n = false.
Proof.
  revert d n. induction dots as [|c dots IH]; intros d n Hd Hn.
  - cbn in Hn. assert (n = O) as -> by lia. reflexivity.
  - destruct n as [|n]; [reflexivity|]. cbn in Hd, Hn.
    apply andb_true_iff in Hd as [Hc Hd]. apply Ascii.eqb_eq in Hc as ->.
    cbn [skip_leading_dots]. unfold slice.
    replace (Z.to_nat (Z.of_nat (len d) + 1 - Z.of_nat (len d))) with 1%nat by lia.
    rewrite Nat2Z.id, substring_append_skip. cbn. rewrite substring_0_0. cbn.
    specialize (IH (d ++ String extsep EmptyString) n Hd ltac:(lia)).
    rewrite append_assoc, length_append in IH. cbn in IH.
    rewrite Nat2Z.inj_add in IH. exact IH.
Qed.

(** The loop leaves at the first character after the leading dots. *)
Lemma skip_leading_dots_leaves (d dots : string) (c : ascii) (r : string) (n : nat) :
  all_dots dots = true -> Ascii.eqb c extsep = false -> (len dots < n)%nat ->
  skip_leading_dots (d ++ dots ++ String c r) (Z.of_nat (len d)) n = true.
Proof.
  revert d n. induction dots as [|x dots IH]; intros d n Hd Hc Hn.
  - destruct n as [|n]; [cbn in Hn; lia|].
    cbn [skip_leading_dots]. unfold slice.
    replace (Z.to_nat (Z.of_nat (len d) + 1 - Z.of_nat (len d))) with 1%nat by lia.
    rewrite Nat2Z.id, substring_append_skip. cbn.
    rewrite substring_0_0. cbn. rewrite Hc. reflexivity.
  - destruct n as [|n]; [cbn in Hn; lia|]. cbn in Hd, Hn.
    apply andb_true_iff in Hd as [Hx Hd]. apply Ascii.eqb_eq in Hx as ->.
    cbn [skip_leading_dots]. unfold slice.
    replace (Z.to_nat (Z.of_nat (len d) + 1 - Z.of_nat (len d))) with 1%nat by lia.
    rewrite Nat2Z.id, substring_append_skip. cbn.
    rewrite substring_0_0. cbn.
    specialize (IH (d ++ String extsep EmptyString) n Hd Hc ltac:(lia)).
    rewrite append_assoc, length_append in IH. cbn in IH.
    rewrite Nat2Z.inj_add in IH. exact IH.
Qed.

(** [os.path.splitext] strips the extension as the specification means
    it. *)
Lemma splitext_strip_extension (p : string) :
  fst (splitext p) = strip_extension p.
Proof.
  unfold splitext, strip_extension.
  destruct (split_name_spec p) as (Hp & Hn & Hsep).
  destruct (split_name p) as [d n]. cbn [fst snd] in *.
  destruct (span_dots_spec n) as (Hdn & Hdots & Hrest).
  destruct (span_dots n) as [dots rest]. cbn [fst snd] in *.
  rewrite split_last_dot_spec.
  replace (rfind sep p + 1) with (Z.of_nat (len d)) by lia.
  rewrite (rfind_last_pos extsep p).
  assert (Hpd : p = d ++ dots ++ rest) by congruence.
  destruct (has_char extsep rest) eqn:Hr.
  - (* the component has an extension *)
    assert (Hk : (0 < last_pos extsep rest)%nat).
    { destruct rest as [|c r]; [discriminate|]. cbn in Hrest, Hr |- *.
      rewrite Hrest in Hr. cbn in Hr. rewrite Hr. lia. }
    assert (Hdot : has_char extsep p = true).
    { rewrite Hpd, !has_char_append, Hr. now rewrite !orb_true_r. }
    assert (Hlp : last_pos extsep p = (len d + (len dots + last_pos extsep rest))%nat).
    { rewrite Hpd, last_pos_append, has_char_append, Hr, orb_true_r.
      now rewrite last_pos_append, Hr. }
    rewrite Hdot, Hlp.
    assert ((rfind sep p <? Z.of_nat (len d + (len dots + last_pos extsep rest))) = true)
      as -> by (apply Z.ltb_lt; lia).
    destruct rest as [|c r]; [discriminate|]. cbn in Hrest.
    rewrite Hpd at 1.
    rewrite (skip_leading_dots_leaves d dots c r) by (assumption || lia).
    cbn [andb fst]. unfold slice. rewrite Z.sub_0_r, Nat2Z.id. cbn [Z.to_nat].
    rewrite Hpd, substring_append_keep, substring_append_keep. reflexivity.
  - (* no extension: the last dot is a leading dot or outside the component *)
    set (dotIndex := if has_char extsep p then Z.of_nat (last_pos extsep p) else -1).
    assert (Hbound : (Z.to_nat (dotIndex - Z.of_nat (len d)) <= len dots)%nat).
    { subst dotIndex. destruct (has_char extsep p) eqn:Hdot; [|lia].
      destruct (has_char extsep dots) eqn:Hd.
      - assert (last_pos extsep p = (len d + last_pos extsep dots)%nat) as ->.
        { rewrite Hpd, last_pos_append, has_char_append, Hd, Hr. cbn [orb].
          now rewrite last_pos_append, Hr. }
        pose proof (last_pos_lt _ _ Hd). lia.
      - assert (Hd' : has_char extsep d = true).
        { rewrite Hpd, !has_char_append, Hd, Hr, !orb_false_r in Hdot. exact Hdot. }
        assert (last_pos extsep p = last_pos extsep d) as ->.
        { rewrite Hpd, last_pos_append, has_char_append, Hd, Hr. reflexivity. }
        pose proof (last_pos_lt _ _ Hd'). lia. }
    pose proof (skip_leading_dots_inside d dots rest _ Hdots Hbound) as Hskip.
    rewrite <- Hpd in Hskip. rewrite Hskip, andb_false_r. reflexivity.
Qed.

End SplitextFacts.

Section Pipeline.

Variable c : Collaborators.
Variable interview_file : UploadFile.
Variable override : option string.

Ltac run :=
  unfold create_golden_circle_response, create_golden_circle_from_interview,
    create_golden_circle_from_interview_try, extract_or_fall_back,
    _extract_text_from_pdf_bytes, _process_interview_for_golden_circle,
    create_golden_circle_from_interview_except,
    create_golden_circle_response_except, log,
    try_except, bind, call, ret, raise in *.

(** What a returned dict tells about the run. *)
Lemma from_interview_returns_inv (t t' : list event) (d : dict) :
  create_golden_circle_from_interview c interview_file override t = (Returns d, t') ->
  exists fname pdf_bytes text,
    filename interview_file = Some fname /\ fname <> EmptyString /\
    content_type interview_file = Some "application/pdf" /\
    read interview_file = Returns pdf_bytes /\
    seek interview_file 0 = Returns tt /\
    docling_to_markdown c pdf_bytes = Returns text /\
    ((exists d0, ExtractGoldenCircleFromMarkdown c text = Returns d0 /\
                 d = override_brand_name override d0) \/
     (exists e, ExtractGoldenCircleFromMarkdown c text = Raises e /\
                d = fallback_dict (brand_name_or_filename override fname))).
Proof.
  run. intros H.
  destruct (filename interview_file) as [[|ch f]|] eqn:Hf; try discriminate.
  destruct (content_type interview_file) as [ct|] eqn:Hct; try discriminate.
  cbn in H. destruct (String.eqb ct "application/pdf") eqn:Hpdf; try discriminate.
  apply String.eqb_eq in Hpdf as ->. cbn in H.
  destruct (read interview_file) as [pdf_bytes|e] eqn:Hr;
    [|destruct e; discriminate].
  destruct (seek interview_file 0) as [[]|e] eqn:Hs; [|destruct e; discriminate].
  destruct (docling_to_markdown c pdf_bytes) as [text|e] eqn:Hd;
    [|destruct e; discriminate].
  exists (String ch f), pdf_bytes, text.
  repeat (split; [congruence|]).
  destruct (ExtractGoldenCircleFromMarkdown c text) as [d0|e] eqn:Hb.
  - left. exists d0. split; [reflexivity|]. unfold override_brand_name. congruence.
  - right. exists e. split; [reflexivity|]. unfold fallback_dict. congruence.
Qed.

Section ValidUpload.

Variables (fname : string) (pdf_bytes : list byte).
Hypothesis Hname : filename interview_file = Some fname.
Hypothesis Hnonempty : fname <> EmptyString.
Hypothesis Hpdf : content_type interview_file = Some "application/pdf".

Lemma try_after_validation (t : list event) :
  create_golden_circle_from_interview_try c interview_file override t =
  (pdf_bytes <- call Read (read interview_file) ;;
   call (Seek 0) (seek interview_file 0) ;;
   extracted_text <- _extract_text_from_pdf_bytes c pdf_bytes ;;
   golden_circle <- extract_or_fall_back c extracted_text fname override ;;
   log INFO "Successfully generated Golden Circle for "
       (AboutValue (dict_get golden_circle "brand_name")) ;;
   ret golden_circle) t.
Proof.
  unfold create_golden_circle_from_interview_try. rewrite Hname, Hpdf.
  destruct fname; [contradiction|]. reflexivity.
Qed.

Hypothesis Hread : read interview_file = Returns pdf_bytes.
Hypothesis Hseek : seek interview_file 0 = Returns tt.

Lemma extraction_failure_run (e : exn) (t : list event) :
  docling_to_markdown c pdf_bytes = Raises e ->
  create_golden_circle_from_interview_try c interview_file override t =
    if is_HTTPException e
    then (Raises e, t ++ [Read; Seek 0; DoclingConvert pdf_bytes])%list
    else (Raises (HTTPException 400
                    "Failed to extract text from PDF. Ensure the PDF is readable."),
          t ++ [Read; Seek 0; DoclingConvert pdf_bytes;
                Log ERROR "Docling PDF extraction failed: " (AboutExn e)])%list.
Proof.
  intros Hd. rewrite try_after_validation. run. rewrite Hread, Hseek, Hd.
  destruct e; cbn; rewrite <- !app_assoc; reflexivity.
Qed.

Variable text : string.
Hypothesis Hdocling : docling_to_markdown c pdf_bytes = Returns text.

Lemma fallback_run (e : exn) (t : list event) :
  ExtractGoldenCircleFromMarkdown c text = Raises e ->
  create_golden_circle_from_interview c interview_file override t =
    (Returns (fallback_dict (brand_name_or_filename override fname)),
     t ++ [Read; Seek 0; DoclingConvert pdf_bytes; BamlExtract text;
           Log WARNING warning_text (AboutExn e);
           Log INFO "Successfully generated Golden Circle for "
             (AboutValue (VStr (brand_name_or_filename override fname)))])%list.
Proof.
  intros Hb. unfold create_golden_circle_from_interview, try_except.
  rewrite try_after_validation. run. rewrite Hread, Hseek, Hdocling, Hb.
  rewrite <- !app_assoc. reflexivity.
Qed.

Lemma success_run (d0 : dict) (t : list event) :
  ExtractGoldenCircleFromMarkdown c text = Returns d0 ->
  create_golden_circle_from_interview c interview_file override t =
    (Returns (override_brand_name override d0),
     t ++ [Read; Seek 0; DoclingConvert pdf_bytes; BamlExtract text;
           Log INFO "Successfully generated Golden Circle for "
             (AboutValue (dict_get (override_brand_name override d0) "brand_name"))])%list.
Proof.
  intros Hb. unfold create_golden_circle_from_interview, try_except.
  rewrite try_after_validation. run. rewrite Hread, Hseek, Hdocling, Hb.
  rewrite <- !app_assoc. reflexivity.
Qed.

End ValidUpload.

(** An exception that leaves the [try] body is an [HTTPException] or was
    raised by the upload's [read] or [seek]. *)
Lemma escaping_exception_origin (e : exn) (t t' : list event) :
  create_golden_circle_from_interview_try c interview_file override t = (Raises e, t') ->
  is_HTTPException e = true \/
  read interview_file = Raises e \/
  seek interview_file 0 = Raises e.
Proof.
  run. intros H.
  destruct (filename interview_file) as [[|ch f]|];
    [injection H as <- _; now left | | injection H as <- _; now left].
  destruct (negb _); [injection H as <- _; now left|].
  destruct (read interview_file) as [pdf_bytes|e0];
    [|injection H as <- _; now (right; left)].
  destruct (seek interview_file 0) as [[]|e0];
    [|injection H as <- _; now (right; right)].
  left.
  destruct (docling_to_markdown c pdf_bytes) as [text|e0].
  - destruct (ExtractGoldenCircleFromMarkdown c text); discriminate.
  - destruct e0; injection H as <- _; reflexivity.
Qed.

End Pipeline.

Section Assembly.

Variables (c : Collaborators) (interview_file : UploadFile) (override : option string).

Lemma response_of_dict (d : dict) (t t' : list event) :
  create_golden_circle_from_interview c interview_file override t = (Returns d, t') ->
  create_golden_circle_response c interview_file override t =
    try_except (GoldenCircleResponse_init c d) create_golden_circle_response_except t'.
Proof.
  intros H. unfold create_golden_circle_response, try_except, bind. rewrite H.
  reflexivity.
Qed.

Lemma response_of_http_error (status : Z) (detail : string) (t t' : list event) :
  create_golden_circle_from_interview c interview_file override t
    = (Raises (HTTPException status detail), t') ->
  create_golden_circle_response c interview_file override t
    = (Raises (HTTPException status detail), t').
Proof.
  intros H. unfold create_golden_circle_response, try_except, bind. rewrite H.
  reflexivity.
Qed.

Lemma from_interview_of_try_error (e : exn) (t t' : list event) :
  create_golden_circle_from_interview_try c interview_file override t = (Raises e, t') ->
  create_golden_circle_from_interview c interview_file override t =
    create_golden_circle_from_interview_except e t'.
Proof.
  intros H. unfold create_golden_circle_from_interview, try_except. now rewrite H.
Qed.

Lemma fallback_dict_validates (b : string) (t : list event) :
  GoldenCircleResponse_init c (fallback_dict b) t =
    (Returns {| brand_name := b;
                golden_circle := {| why := why_template b; how := how_template;
                                    what := what_template b |} |}, t).
Proof. reflexivity. Qed.

End Assembly.

Lemma why_template_nonempty (b : string) : why_template b <> EmptyString.
Proof. unfold why_template. cbn. discriminate. Qed.

Lemma how_template_nonempty : how_template <> EmptyString.
Proof. unfold how_template. discriminate. Qed.

Lemma what_template_nonempty (b : string) : what_template b <> EmptyString.
Proof. unfold what_template. destruct b; cbn; discriminate. Qed.

Lemma map_empty_iff (f : ascii -> ascii) (s : string) : PyStr.map f s = EmptyString <-> s = EmptyString.
Proof. destruct s; cbn; split; (reflexivity || discriminate). Qed.

Lemma title_empty_iff (s : string) : PyStr.title s = EmptyString <-> s = EmptyString.
Proof. destruct s; cbn; split; (reflexivity || discriminate). Qed.

(** The derived name is empty exactly when nothing but the extension and
    the markers makes up the file name. *)
Lemma derived_name_empty_iff (filename : string) :
  _extract_brand_name_from_filename filename = EmptyString <->
  BrandNameSpec.remove_exact "-interview"
    (BrandNameSpec.remove_exact "_interview" (BrandNameSpec.strip_extension filename)) = EmptyString.
Proof.
  unfold _extract_brand_name_from_filename.
  rewrite title_empty_iff, replace_underscores.
  unfold BrandNameSpec.underscores_to_spaces. rewrite map_empty_iff.
  now rewrite !replace_remove_exact, splitext_strip_extension.
Qed.

Lemma brand_name_or_filename_empty_iff (override : option string) (fname : string) :
  brand_name_or_filename override fname = EmptyString <->
  truthy override = false /\ _extract_brand_name_from_filename fname = EmptyString.
Proof.
  unfold brand_name_or_filename, truthy.
  destruct override as [[|ch b]|]; split; try tauto;
    try (intros [? ?]; discriminate); try discriminate.
Qed.

(** The fallback path.  When the upload passes validation and extraction
    and the BAML client raises any exception, the exception is logged as a
    warning and not propagated: [create_golden_circle_from_interview]
    returns the heuristic dict and [create_golden_circle_response] the
    validated model; [why], [how] and [what] are never empty; the brand
    name is the override when that is non-empty and the name derived from
    the file name otherwise, so it is empty exactly when there is no
    override and the derived name is empty. *)
Theorem fallback_keeps_pipeline_available
    (c : Collaborators) (interview_file : UploadFile) (override : option string)
    (fname : string) (pdf_bytes : list byte) (text : string) (e : exn)
    (t : list event) :
  filename interview_file = Some fname -> fname <> EmptyString ->
  content_type interview_file = Some "application/pdf" ->
  read interview_file = Returns pdf_bytes ->
  seek interview_file 0 = Returns tt ->
  docling_to_markdown c pdf_bytes = Returns text ->
  ExtractGoldenCircleFromMarkdown c text = Raises e ->
  let b := brand_name_or_filename override fname in
  let t' := (t ++ [Read; Seek 0; DoclingConvert pdf_bytes; BamlExtract text;
                   Log WARNING warning_text (AboutExn e);
                   Log INFO "Successfully generated Golden Circle for "
                     (AboutValue (VStr b))])%list in
  create_golden_circle_from_interview c interview_file override t
    = (Returns (fallback_dict b), t') /\
  create_golden_circle_response c interview_file override t
    = (Returns {| brand_name := b;
                  golden_circle := {| why := why_template b; how := how_template;
                                      what := what_template b |} |}, t') /\
  why_template b <> EmptyString /\ how_template <> EmptyString /\ what_template b <> EmptyString /\
  (b = EmptyString <-> truthy override = false /\ _extract_brand_name_from_filename fname = EmptyString).
Proof.
  intros Hname Hne Hpdf Hread Hseek Hdoc Hbaml b t'.
  pose proof (fallback_run c interview_file override fname pdf_bytes
                Hname Hne Hpdf Hread Hseek text Hdoc e t Hbaml) as Hrun.
  split; [exact Hrun|]. split.
  - rewrite (response_of_dict _ _ _ _ _ _ Hrun). reflexivity.
  - split; [apply why_template_nonempty|].
    split; [apply how_template_nonempty|].
    split; [apply what_template_nonempty|].
    apply brand_name_or_filename_empty_iff.
Qed.

Lemma fallback_keeps_pipeline_available_witness :
  fst (create_golden_circle_response Scenario.offline
         (Scenario.upload "test_interview.pdf" "application/pdf") None [])
  = Returns {| brand_name := "Test";
               golden_circle := {| why := why_template "Test"; how := how_template;
                                   what := what_template "Test" |} |}.
Proof.
  pose proof (fallback_keeps_pipeline_available Scenario.offline
                (Scenario.upload "test_interview.pdf" "application/pdf") None
                "test_interview.pdf" Scenario.pdf_payload Scenario.interview_text _ []
                eq_refl ltac:(discriminate) eq_refl eq_refl eq_refl eq_refl eq_refl)
    as (_ & H & _).
  rewrite H. reflexivity.
Defined.

(** C1 at its failing input.  An upload named "_interview.pdf" passes
    validation and extraction, the BAML client raises, there is no
    override, and the model that [create_golden_circle_response] returns
    has the empty string as [brand_name], where C1 and the repository's own
    API test expect a non-empty brand name. *)
Lemma fallback_brand_name_can_be_empty :
  let upload := Scenario.upload "_interview.pdf" "application/pdf" in
  truthy (filename upload) = true /\
  py_in (content_type upload) allowed_types = true /\
  docling_to_markdown Scenario.offline Scenario.pdf_payload
    = Returns Scenario.interview_text /\
  (exists e, ExtractGoldenCircleFromMarkdown Scenario.offline Scenario.interview_text
             = Raises e) /\
  exists r, fst (create_golden_circle_response Scenario.offline upload None [])
            = Returns r /\ brand_name r = EmptyString.
Proof.
  cbv zeta. repeat split; [eexists; reflexivity|].
  eexists. split; [vm_compute; reflexivity | reflexivity].
Qed.

(** C2, as the code has it.  For every file name made of ASCII characters
    the derived brand name is the result of stripping the extension,
    removing the substrings "_interview" and then "-interview" where they
    occur in exactly this lower-case spelling, replacing underscores with
    spaces and title-casing every word; the four examples of the
    specification hold. *)
Theorem brand_name_derivation :
  (forall filename : string,
     PyStr.isascii filename = true ->
     _extract_brand_name_from_filename filename = BrandNameSpec.derive filename) /\
  _extract_brand_name_from_filename "brand_interview.txt" = "Brand" /\
  _extract_brand_name_from_filename "my-company-interview.pdf" = "My-Company" /\
  _extract_brand_name_from_filename "awesome_brand_interview.md" = "Awesome Brand" /\
  _extract_brand_name_from_filename "company_name_interview_final.pdf"
    = "Company Name Final".
Proof.
  split; [|repeat split].
  intros filename _. unfold _extract_brand_name_from_filename, BrandNameSpec.derive.
  now rewrite title_title_words, replace_underscores, !replace_remove_exact,
    splitext_strip_extension.
Qed.

Lemma brand_name_derivation_witness :
  PyStr.isascii "Olillac_interview.pdf" = true /\
  _extract_brand_name_from_filename "Olillac_interview.pdf"
    = BrandNameSpec.derive "Olillac_interview.pdf".
Proof.
  split; [reflexivity|].
  apply (proj1 brand_name_derivation "Olillac_interview.pdf"). reflexivity.
Defined.

(** C2 as stated fails: the markers are not removed case-insensitively.
    "Acme_Interview.pdf" derives "Acme Interview", where the rule of the
    specification gives "Acme". *)
Lemma brand_name_markers_are_case_sensitive :
  _extract_brand_name_from_filename "Acme_Interview.pdf" = "Acme Interview" /\
  BrandNameSpec.derive_case_insensitive "Acme_Interview.pdf" = "Acme" /\
  _extract_brand_name_from_filename "Acme_Interview.pdf"
    <> BrandNameSpec.derive_case_insensitive "Acme_Interview.pdf".
Proof. repeat split. discriminate. Qed.

(** C3.  A missing file name (None or empty, what Python's [not] rejects) is
    refused with status 400 and "No file provided"; otherwise a media type
    other than exactly "application/pdf" is refused with status 400 and a
    detail that contains "Unsupported file type".  In both cases the trace
    is left as it was: the upload is not read and Docling is not called. *)
Theorem validation_rejects_before_reading
    (c : Collaborators) (interview_file : UploadFile) (override : option string)
    (t : list event) :
  truthy (filename interview_file) = false \/
  content_type interview_file <> Some "application/pdf" ->
  let detail :=
    if truthy (filename interview_file)
    then "Unsupported file type. Allowed types: ['application/pdf']"
    else "No file provided" in
  create_golden_circle_from_interview c interview_file override t
    = (Raises (HTTPException 400 detail), t) /\
  create_golden_circle_response c interview_file override t
    = (Raises (HTTPException 400 detail), t) /\
  PyStr.contains
    (if truthy (filename interview_file)
     then "Unsupported file type" else "No file provided") detail = true.
Proof.
  intros H detail.
  assert (Hrun : create_golden_circle_from_interview c interview_file override t
                 = (Raises (HTTPException 400 detail), t)).
  { subst detail.
    unfold create_golden_circle_from_interview, create_golden_circle_from_interview_try,
      try_except, raise.
    destruct (filename interview_file) as [[|ch f]|]; cbn; try reflexivity.
    destruct H as [H|H]; [discriminate|].
    destruct (content_type interview_file) as [ct|]; [|reflexivity].
    cbn. destruct (String.eqb_spec ct "application/pdf") as [->|Hne];
      [contradiction | reflexivity]. }
  split; [exact Hrun|]. split; [now apply response_of_http_error|].
  subst detail. destruct (truthy (filename interview_file)); reflexivity.
Qed.

Lemma validation_rejects_before_reading_witness :
  create_golden_circle_response Scenario.offline
    (Scenario.upload "test.jpg" "image/jpeg") (Some "Test Company") []
  = (Raises (HTTPException 400
               "Unsupported file type. Allowed types: ['application/pdf']"), []).
Proof.
  apply (validation_rejects_before_reading Scenario.offline
           (Scenario.upload "test.jpg" "image/jpeg") (Some "Test Company") []).
  right. discriminate.
Defined.

(** C4, as the code has it.  When the upload passes validation and the
    conversion of the PDF bytes raises an exception that is not an
    [HTTPException], the pipeline raises status 400 with a detail that
    contains "Failed to extract text", and both layers pass this error on
    unchanged; an [HTTPException] raised inside the conversion is itself
    passed on unchanged, with its own status and detail. *)
Theorem extraction_failure_is_client_error
    (c : Collaborators) (interview_file : UploadFile) (override : option string)
    (fname : string) (pdf_bytes : list byte) (e : exn) (t : list event) :
  filename interview_file = Some fname -> fname <> EmptyString ->
  content_type interview_file = Some "application/pdf" ->
  read interview_file = Returns pdf_bytes ->
  seek interview_file 0 = Returns tt ->
  docling_to_markdown c pdf_bytes = Raises e ->
  let raised :=
    if is_HTTPException e then e else HTTPException 400 extraction_failed_detail in
  let t' :=
    (t ++ [Read; Seek 0; DoclingConvert pdf_bytes] ++
       if is_HTTPException e then []
       else [Log ERROR "Docling PDF extraction failed: " (AboutExn e)])%list in
  create_golden_circle_from_interview c interview_file override t = (Raises raised, t') /\
  create_golden_circle_response c interview_file override t = (Raises raised, t') /\
  PyStr.contains "Failed to extract text" extraction_failed_detail = true.
Proof.
  intros Hname Hne Hpdf Hread Hseek Hdoc raised t'.
  pose proof (extraction_failure_run c interview_file override fname pdf_bytes
                Hname Hne Hpdf Hread Hseek e t Hdoc) as Htry.
  assert (Hrun : create_golden_circle_from_interview c interview_file override t
                 = (Raises raised, t')).
  { rewrite (from_interview_of_try_error _ _ _ raised t t').
    - subst raised. destruct e; reflexivity.
    - subst raised t'. rewrite Htry. destruct e; reflexivity. }
  split; [exact Hrun|]. split; [|reflexivity].
  subst raised. destruct e; now apply response_of_http_error.
Qed.

Lemma extraction_failure_is_client_error_witness :
  create_golden_circle_response
    (Scenario.failing_docling (OtherException "ConversionError" "not a PDF"))
    (Scenario.upload "empty.pdf" "application/pdf") (Some "Test Company") []
  = (Raises (HTTPException 400 extraction_failed_detail),
     [Read; Seek 0; DoclingConvert Scenario.pdf_payload;
      Log ERROR "Docling PDF extraction failed: "
        (AboutExn (OtherException "ConversionError" "not a PDF"))]).
Proof.
  apply (extraction_failure_is_client_error
           (Scenario.failing_docling (OtherException "ConversionError" "not a PDF"))
           (Scenario.upload "empty.pdf" "application/pdf") (Some "Test Company")
           "empty.pdf" Scenario.pdf_payload
           (OtherException "ConversionError" "not a PDF") []);
    (reflexivity || discriminate).
Defined.

(** C4 as stated fails for one class of failures: an [HTTPException] raised
    inside the conversion is bubbled up by the first [except] clause of
    [_extract_text_from_pdf_bytes], so the caller sees its status and
    detail, not 400 and "Failed to extract text". *)
Lemma extraction_http_error_bubbles_up :
  let c := Scenario.failing_docling (HTTPException 503 "converter unavailable") in
  let upload := Scenario.upload "test.pdf" "application/pdf" in
  docling_to_markdown c Scenario.pdf_payload
    = Raises (HTTPException 503 "converter unavailable") /\
  fst (create_golden_circle_response c upload None [])
    = Raises (HTTPException 503 "converter unavailable") /\
  PyStr.contains "Failed to extract text" "converter unavailable" = false.
Proof. repeat split. Qed.

(** What leaves the [try] body of [create_golden_circle_from_interview]
    and is neither an [HTTPException] nor a [UnicodeDecodeError] is logged
    and replaced by status 500 with a fixed detail. *)
Lemma try_body_errors_become_server_faults
    (c : Collaborators) (interview_file : UploadFile) (override : option string)
    (e : exn) (t t' : list event) :
  create_golden_circle_from_interview_try c interview_file override t = (Raises e, t') ->
  is_HTTPException e = false -> is_UnicodeDecodeError e = false ->
  create_golden_circle_from_interview c interview_file override t
    = (Raises (HTTPException 500 server_fault_detail),
       (t' ++ [Log ERROR "Error processing interview file for Golden Circle: "
                 (AboutExn e)])%list).
Proof.
  intros Htry Hhttp Huni.
  rewrite (from_interview_of_try_error _ _ _ e t t' Htry).
  destruct e; try discriminate. reflexivity.
Qed.

(** C5, as the code has it.  The exceptions of the processing that are
    neither validation errors, nor extraction errors, nor failures of the
    BAML client are those raised by the upload's [read] or [seek] and by
    the assembly of the response model.  One raised by [read] or [seek]
    that is neither a [UnicodeDecodeError] nor an [HTTPException] is logged
    and replaced by status 500 with the fixed detail "Internal server error
    processing file", which [create_golden_circle_response] passes on; one
    raised by the assembly is replaced by status 500 with the fixed detail
    "An unexpected error occurred while processing the Golden Circle
    request".  Neither detail depends on the exception. *)
Theorem unexpected_errors_become_server_faults
    (c : Collaborators) (interview_file : UploadFile) (override : option string)
    (t : list event) :
  (forall (e : exn) (calls : list event),
     truthy (filename interview_file) = true ->
     content_type interview_file = Some "application/pdf" ->
     (read interview_file = Raises e /\ calls = [Read]) \/
     (exists b, read interview_file = Returns b /\
                seek interview_file 0 = Raises e /\ calls = [Read; Seek 0]) ->
     is_HTTPException e = false -> is_UnicodeDecodeError e = false ->
     let logged :=
       (t ++ calls ++
          [Log ERROR "Error processing interview file for Golden Circle: "
             (AboutExn e)])%list in
     create_golden_circle_from_interview c interview_file override t
       = (Raises (HTTPException 500 server_fault_detail), logged) /\
     create_golden_circle_response c interview_file override t
       = (Raises (HTTPException 500 server_fault_detail), logged)) /\
  (forall (e : exn) (t' : list event),
     create_golden_circle_from_interview_try c interview_file override t = (Raises e, t') ->
     is_HTTPException e = false ->
     read interview_file = Raises e \/ seek interview_file 0 = Raises e) /\
  (forall (d : dict) (e : exn) (t' t'' : list event),
     create_golden_circle_from_interview c interview_file override t = (Returns d, t') ->
     GoldenCircleResponse_init c d t' = (Raises e, t'') ->
     create_golden_circle_response c interview_file override t
       = (Raises (HTTPException 500 assembly_fault_detail),
          (t'' ++ [Log ERROR "Unexpected error in Golden Circle creation: "
                     (AboutExn e)])%list)).
Proof.
  split; [|split].
  - intros e calls Hname Hpdf Horigin Hhttp Huni logged.
    assert (Htry : create_golden_circle_from_interview_try c interview_file override t
                   = (Raises e, (t ++ calls)%list)).
    { unfold create_golden_circle_from_interview_try, bind, call.
      destruct (filename interview_file) as [[|ch fn]|]; try discriminate.
      rewrite Hpdf. change (py_in (Some "application/pdf") allowed_types) with true.
      cbn [negb].
      destruct Horigin as [[Hread ->]|(b & Hread & Hseek & ->)].
      - now rewrite Hread.
      - rewrite Hread, Hseek, <- app_assoc. reflexivity. }
    assert (Hrun : create_golden_circle_from_interview c interview_file override t
                   = (Raises (HTTPException 500 server_fault_detail), logged)).
    { subst logged. rewrite app_assoc.
      now apply try_body_errors_become_server_faults. }
    split; [exact Hrun | now apply response_of_http_error].
  - intros e t' Htry Hhttp.
    destruct (escaping_exception_origin _ _ _ _ _ _ Htry) as [H|H]; [congruence | exact H].
  - intros d e t' t'' Hrun Hinit.
    rewrite (response_of_dict _ _ _ _ _ _ Hrun). unfold try_except. rewrite Hinit.
    unfold GoldenCircleResponse_init in Hinit.
    destruct (validate_str _); [destruct (validate_GoldenCircle _)|];
      try discriminate; injection Hinit as <- <-; reflexivity.
Qed.

Lemma unexpected_errors_become_server_faults_witness :
  create_golden_circle_response Scenario.offline
    (Scenario.unreadable_upload (OtherException "OSError" "spooled file closed"))
    None []
  = (Raises (HTTPException 500 server_fault_detail),
     [Read; Log ERROR "Error processing interview file for Golden Circle: "
              (AboutExn (OtherException "OSError" "spooled file closed"))]) /\
  create_golden_circle_response
    (Scenario.online {[ "why" := VStr "w"; "how" := VStr "h"; "what" := VStr "x" ]})
    (Scenario.upload "test_interview.pdf" "application/pdf") None []
  = (Raises (HTTPException 500 assembly_fault_detail),
     [Read; Seek 0; DoclingConvert Scenario.pdf_payload;
      BamlExtract Scenario.interview_text;
      Log INFO "Successfully generated Golden Circle for " (AboutValue VNone);
      Log ERROR "Unexpected error in Golden Circle creation: "
        (AboutExn (OtherException "ValidationError"
                     "1 validation error for GoldenCircleResponse"))]).
Proof.
  split.
  - apply (proj1 (unexpected_errors_become_server_faults Scenario.offline
             (Scenario.unreadable_upload (OtherException "OSError" "spooled file closed"))
             None [])
             (OtherException "OSError" "spooled file closed") [Read]);
      try reflexivity.
    left. split; reflexivity.
  - apply (proj2 (proj2 (unexpected_errors_become_server_faults
             (Scenario.online {[ "why" := VStr "w"; "how" := VStr "h"; "what" := VStr "x" ]})
             (Scenario.upload "test_interview.pdf" "application/pdf") None []))
             {[ "why" := VStr "w"; "how" := VStr "h"; "what" := VStr "x" ]}
             (OtherException "ValidationError" "1 validation error for GoldenCircleResponse")
             [Read; Seek 0; DoclingConvert Scenario.pdf_payload;
              BamlExtract Scenario.interview_text;
              Log INFO "Successfully generated Golden Circle for " (AboutValue VNone)]
             [Read; Seek 0; DoclingConvert Scenario.pdf_payload;
              BamlExtract Scenario.interview_text;
              Log INFO "Successfully generated Golden Circle for " (AboutValue VNone)]);
      reflexivity.
Defined.

(** C5 as stated fails for two classes of exceptions.  Raised by the
    upload's [read], a [UnicodeDecodeError] and an [HTTPException] are none
    of validation error, extraction error or client failure; for the first
    the caller receives status 400, and the second reaches the caller as it
    is, with its own status and detail. *)
Lemma unexpected_errors_that_are_not_server_faults :
  (let upload := Scenario.unreadable_upload (UnicodeDecodeError "invalid start byte") in
   truthy (filename upload) = true /\
   py_in (content_type upload) allowed_types = true /\
   create_golden_circle_response Scenario.offline upload None []
     = (Raises (HTTPException 400 "File encoding not supported. Please use UTF-8."),
        [Read])) /\
  (let upload :=
     Scenario.unreadable_upload (HTTPException 413 "Request entity too large") in
   truthy (filename upload) = true /\
   py_in (content_type upload) allowed_types = true /\
   create_golden_circle_response Scenario.offline upload None []
     = (Raises (HTTPException 413 "Request entity too large"), [Read])).
Proof. repeat split. Qed.

Lemma response_returns_inv (c : Collaborators) (interview_file : UploadFile)
    (override : option string) (r : GoldenCircleResponse) (t t' : list event) :
  create_golden_circle_response c interview_file override t = (Returns r, t') ->
  exists d t0,
    create_golden_circle_from_interview c interview_file override t = (Returns d, t0) /\
    GoldenCircleResponse_init c d t0 = (Returns r, t').
Proof.
  unfold create_golden_circle_response, try_except, bind. intros H.
  destruct (create_golden_circle_from_interview c interview_file override t)
    as [[d|e] t0].
  - exists d, t0. split; [reflexivity|].
    destruct (GoldenCircleResponse_init c d t0) as [[r0|e] t1]; [exact H|].
    destruct e; discriminate.
  - destruct e; discriminate.
Qed.

(** The model that validation returns is read off the dict alone. *)
Lemma init_returns_inv (c : Collaborators) (d : dict) (r : GoldenCircleResponse)
    (t t' : list event) :
  GoldenCircleResponse_init c d t = (Returns r, t') ->
  validate_str (d !! "brand_name") = Some (brand_name r) /\
  validate_GoldenCircle (d !! "golden_circle") = Some (golden_circle r).
Proof.
  unfold GoldenCircleResponse_init, ret, raise.
  destruct (validate_str _); [destruct (validate_GoldenCircle _)|];
    intros H; try discriminate.
  injection H as <- _. split; reflexivity.
Qed.

Lemma init_deterministic (c1 c2 : Collaborators) (d : dict)
    (r1 r2 : GoldenCircleResponse) (t1 t1' t2 t2' : list event) :
  GoldenCircleResponse_init c1 d t1 = (Returns r1, t1') ->
  GoldenCircleResponse_init c2 d t2 = (Returns r2, t2') ->
  r1 = r2.
Proof.
  intros [Hb1 Hg1]%init_returns_inv [Hb2 Hg2]%init_returns_inv.
  destruct r1, r2. cbn in *. congruence.
Qed.

(** C6.  With a non-empty override, every dict that
    [create_golden_circle_from_interview] returns carries the override under
    "brand_name", and every model that [create_golden_circle_response]
    returns has it as [brand_name], whether the BAML client answered (the
    inferred name is overwritten) or the heuristic generator ran (the file
    name is not consulted). *)
Theorem brand_name_override_wins
    (c : Collaborators) (interview_file : UploadFile) (b : string) (t : list event) :
  b <> EmptyString ->
  (forall (d : dict) (t' : list event),
     create_golden_circle_from_interview c interview_file (Some b) t = (Returns d, t') ->
     d !! "brand_name" = Some (VStr b)) /\
  (forall (r : GoldenCircleResponse) (t' : list event),
     create_golden_circle_response c interview_file (Some b) t = (Returns r, t') ->
     brand_name r = b).
Proof.
  intros Hb.
  assert (Hdict : forall d t',
             create_golden_circle_from_interview c interview_file (Some b) t
               = (Returns d, t') -> d !! "brand_name" = Some (VStr b)).
  { intros d t' H.
    apply from_interview_returns_inv in H
      as (fname & pdf_bytes & text & _ & _ & _ & _ & _ & _ & [(d0 & _ & ->)|(e & _ & ->)]).
    - destruct b; [contradiction|]. cbn. apply lookup_insert_eq.
    - destruct b; [contradiction|]. reflexivity. }
  split; [exact Hdict|].
  intros r t' H. apply response_returns_inv in H as (d & t0 & Hrun & Hinit).
  apply init_returns_inv in Hinit as [Hname _].
  rewrite (Hdict _ _ Hrun) in Hname. cbn in Hname. congruence.
Qed.

Lemma brand_name_override_wins_witness :
  (exists r t', create_golden_circle_response (Scenario.online Scenario.baml_answer)
                  (Scenario.upload "test_interview.pdf" "application/pdf")
                  (Some "Test Company") [] = (Returns r, t') /\
                brand_name r = "Test Company") /\
  (exists r t', create_golden_circle_response Scenario.offline
                  (Scenario.upload "test_interview.pdf" "application/pdf")
                  (Some "Test Company") [] = (Returns r, t') /\
                brand_name r = "Test Company").
Proof.
  split; do 2 eexists; (split; [vm_compute; reflexivity|]).
  - eapply (brand_name_override_wins (Scenario.online Scenario.baml_answer)
              (Scenario.upload "test_interview.pdf" "application/pdf")
              "Test Company" []); [discriminate | vm_compute; reflexivity].
  - eapply (brand_name_override_wins Scenario.offline
              (Scenario.upload "test_interview.pdf" "application/pdf")
              "Test Company" []); [discriminate | vm_compute; reflexivity].
Defined.

(** C7.  The heuristic generator does not read the text: for every brand
    name and every two texts it returns the same dict, leaves the trace
    alone and never raises; [why] and [what] are the two templates filled
    with the brand name and [how] is a constant. *)
Theorem fallback_ignores_text (brand text1 text2 : string) (t : list event) :
  _process_interview_for_golden_circle text1 brand t
    = _process_interview_for_golden_circle text2 brand t /\
  exists d gc,
    _process_interview_for_golden_circle text1 brand t = (Returns d, t) /\
    d !! "brand_name" = Some (VStr brand) /\
    d !! "golden_circle" = Some (VDict gc) /\
    gc !! "why" = Some (VStr (why_template brand)) /\
    gc !! "how" = Some (VStr how_template) /\
    gc !! "what" = Some (VStr (what_template brand)).
Proof.
  split; [reflexivity|]. do 2 eexists. split; [reflexivity|]. repeat split.
Qed.

(** C8, with the assumption on Docling that it needs.  Two calls receive
    the same file name, the same bytes and the same override.  If the BAML
    client fails at every call, the two returned models are equal, even if
    Docling answers differently in the two calls; if the client answers in
    the second call what it answered in the first and Docling returns the
    same text for the same bytes in both calls, the two returned models are
    equal. *)
Theorem pipeline_is_repeatable
    (c1 c2 : Collaborators) (file1 file2 : UploadFile) (override : option string)
    (pdf_bytes : list byte) (t1 t2 t1' t2' : list event)
    (r1 r2 : GoldenCircleResponse) :
  filename file1 = filename file2 ->
  read file1 = Returns pdf_bytes -> read file2 = Returns pdf_bytes ->
  (unavailable c1 /\ unavailable c2) \/
  ((forall text, ExtractGoldenCircleFromMarkdown c1 text
                 = ExtractGoldenCircleFromMarkdown c2 text) /\
   (forall b, docling_to_markdown c1 b = docling_to_markdown c2 b)) ->
  create_golden_circle_response c1 file1 override t1 = (Returns r1, t1') ->
  create_golden_circle_response c2 file2 override t2 = (Returns r2, t2') ->
  r1 = r2.
Proof.
  intros Hname Hread1 Hread2 Hclient H1 H2.
  apply response_returns_inv in H1 as (d1 & u1 & Hrun1 & Hinit1).
  apply response_returns_inv in H2 as (d2 & u2 & Hrun2 & Hinit2).
  enough (d1 = d2) as <- by exact (init_deterministic _ _ _ _ _ _ _ _ _ Hinit1 Hinit2).
  apply from_interview_returns_inv in Hrun1
    as (fname1 & b1 & text1 & Hf1 & _ & _ & Hr1 & _ & Hd1 & Hpath1).
  apply from_interview_returns_inv in Hrun2
    as (fname2 & b2 & text2 & Hf2 & _ & _ & Hr2 & _ & Hd2 & Hpath2).
  assert (fname1 = fname2) as <- by congruence.
  assert (b1 = pdf_bytes) as -> by congruence.
  assert (b2 = pdf_bytes) as -> by congruence.
  destruct Hclient as [[Hu1 Hu2]|[Hsame Hdoc]].
  - destruct (Hu1 text1) as [e1 He1], (Hu2 text2) as [e2 He2].
    destruct Hpath1 as [(d0 & Hb & _)|(_ & _ & ->)]; [congruence|].
    destruct Hpath2 as [(d0 & Hb & _)|(_ & _ & ->)]; [congruence|].
    reflexivity.
  - assert (text1 = text2) as <- by (rewrite Hdoc in Hd1; congruence).
    rewrite Hsame in Hpath1.
    destruct Hpath1 as [(d0 & Hb1 & ->)|(e1 & Hb1 & ->)],
             Hpath2 as [(d0' & Hb2 & ->)|(e2 & Hb2 & ->)]; congruence.
Qed.

Lemma pipeline_is_repeatable_witness :
  exists r1 r2 t1' t2',
    create_golden_circle_response Scenario.offline
      (Scenario.upload "Olillac_interview.pdf" "application/pdf") None []
      = (Returns r1, t1') /\
    create_golden_circle_response
      (Scenario.failing_client (OtherException "TimeoutError" "timed out"))
      (Scenario.upload "Olillac_interview.pdf" "application/pdf") None [Read]
      = (Returns r2, t2') /\
    r1 = r2 /\ brand_name r1 = "Olillac".
Proof.
  do 4 eexists.
  split; [vm_compute; reflexivity|]. split; [vm_compute; reflexivity|].
  split; [|reflexivity].
  eapply (pipeline_is_repeatable Scenario.offline
            (Scenario.failing_client (OtherException "TimeoutError" "timed out"))
            (Scenario.upload "Olillac_interview.pdf" "application/pdf")
            (Scenario.upload "Olillac_interview.pdf" "application/pdf")
            None Scenario.pdf_payload [] [Read]).
  - reflexivity.
  - reflexivity.
  - reflexivity.
  - left. split; intros text; eexists; reflexivity.
  - vm_compute; reflexivity.
  - vm_compute; reflexivity.
Defined.

(** C8 as stated fails when Docling is not repeatable: with the same file
    name, bytes and override and with a BAML client that is one function of
    its input in both calls, two calls in which Docling extracts different
    texts from the same bytes return different models. *)
Lemma repeatability_needs_a_repeatable_docling :
  let file := Scenario.upload "test_interview.pdf" "application/pdf" in
  let first := Scenario.quoting "first reading" in
  let second := Scenario.quoting "second reading" in
  (forall markdown,
     ExtractGoldenCircleFromMarkdown first markdown
     = ExtractGoldenCircleFromMarkdown second markdown) /\
  read file = Returns Scenario.pdf_payload /\
  exists r1 r2 t1 t2,
    create_golden_circle_response first file None [] = (Returns r1, t1) /\
    create_golden_circle_response second file None [] = (Returns r2, t2) /\
    why (golden_circle r1) = "first reading" /\
    why (golden_circle r2) = "second reading" /\
    r1 <> r2.
Proof.
  cbv zeta. split; [reflexivity|]. split; [reflexivity|].
  do 4 eexists. split; [vm_compute; reflexivity|]. split; [vm_compute; reflexivity|].
  split; [reflexivity|]. split; [reflexivity|]. discriminate.
Qed.

(** C9.  Whatever the collaborators and whatever happened before, the health
    accessor returns the dict with exactly "status": "healthy" and
    "service": "branding", the formats accessor returns the dict with the
    one PDF entry, "max_file_size": "10MB" and "encoding": "UTF-8", and
    neither has an effect. *)
Theorem accessors_are_constant (c : Collaborators) (t : list event) :
  get_health_status c t =
    (Returns (list_to_map [("status", VStr "healthy"); ("service", VStr "branding")]), t) /\
  get_supported_file_formats c t =
    (Returns (list_to_map
                [("supported_formats",
                  VList [VDict (list_to_map [("extension", VStr ".pdf");
                                             ("mime_type", VStr "application/pdf");
                                             ("description", VStr "PDF documents")])]);
                 ("max_file_size", VStr "10MB");
                 ("encoding", VStr "UTF-8")]), t).
Proof. split; reflexivity. Qed.

(** C10.  When a [UnicodeDecodeError] leaves the processing of an upload
    that passed validation (it can only come from the upload's [read] or
    [seek]), [create_golden_circle_from_interview] raises status 400 with
    the detail "File encoding not supported. Please use UTF-8.", which
    [create_golden_circle_response] passes on; every exception that is
    neither this nor an [HTTPException] gets the generic status 500. *)
Theorem unicode_decode_error_is_client_error
    (c : Collaborators) (interview_file : UploadFile) (override : option string)
    (reason : string) (t t' : list event) :
  truthy (filename interview_file) = true ->
  content_type interview_file = Some "application/pdf" ->
  create_golden_circle_from_interview_try c interview_file override t
    = (Raises (UnicodeDecodeError reason), t') ->
  create_golden_circle_from_interview c interview_file override t
    = (Raises (HTTPException 400 "File encoding not supported. Please use UTF-8."), t') /\
  create_golden_circle_response c interview_file override t
    = (Raises (HTTPException 400 "File encoding not supported. Please use UTF-8."), t') /\
  (read interview_file = Raises (UnicodeDecodeError reason) \/
   seek interview_file 0 = Raises (UnicodeDecodeError reason)) /\
  (forall e, is_HTTPException e = false -> is_UnicodeDecodeError e = false ->
             fst (create_golden_circle_from_interview_except e t')
             = Raises (HTTPException 500 server_fault_detail)).
Proof.
  intros _ _ Htry.
  assert (Hrun : create_golden_circle_from_interview c interview_file override t
                 = (Raises (HTTPException 400
                              "File encoding not supported. Please use UTF-8."), t')).
  { now rewrite (from_interview_of_try_error _ _ _ _ t t' Htry). }
  split; [exact Hrun|]. split; [now apply response_of_http_error|]. split.
  - destruct (escaping_exception_origin _ _ _ _ _ _ Htry) as [H|H];
      [discriminate | exact H].
  - intros e Hhttp Huni. destruct e; try discriminate. reflexivity.
Qed.

Lemma unicode_decode_error_is_client_error_witness :
  create_golden_circle_from_interview Scenario.offline
    (Scenario.unreadable_upload (UnicodeDecodeError "invalid start byte")) None []
  = (Raises (HTTPException 400 "File encoding not supported. Please use UTF-8."), [Read]).
Proof.
  apply (unicode_decode_error_is_client_error Scenario.offline
           (Scenario.unreadable_upload (UnicodeDecodeError "invalid start byte")) None
           "invalid start byte" [] [Read]); reflexivity.
Defined.

(** ** The examples of the unit tests *)

Example splitext_hidden_file : PosixPath.splitext ".bashrc" = (".bashrc", EmptyString).
Proof. reflexivity. Qed.

Example splitext_dot_in_directory : PosixPath.splitext "a.b/c" = ("a.b/c", EmptyString).
Proof. reflexivity. Qed.

Example splitext_last_dot_only :
  PosixPath.splitext "/x/..a.tar.gz" = ("/x/..a.tar", ".gz").
Proof. reflexivity. Qed.

Example brand_name_simple : _extract_brand_name_from_filename "simple.txt" = "Simple".
Proof. reflexivity. Qed.

Example brand_name_olillac :
  _extract_brand_name_from_filename "Olillac_interview.pdf" = "Olillac".
Proof. reflexivity. Qed.

Example words_of_a_name :
  BrandNameSpec.words "my-company x" = ["my"; "-"; "company"; " "; "x"].
Proof. reflexivity. Qed.

(** * Further properties of the service *)

(** ** The interview summary *)

Section SummaryFacts.

Import PySplit.

Lemma split_scan_joined (word : option string) (a b : string) (sp : ascii) :
  isspace sp = true ->
  split_scan word (a ++ String sp b) = (split_scan word a ++ split_scan None b)%list.
Proof.
  intros Hsp. revert word. induction a as [|c a IH]; intros word.
  - cbn. rewrite Hsp. now destruct word.
  - cbn. destruct (isspace c); [destruct word; cbn; now rewrite IH | apply IH].
Qed.

Lemma split_scan_open_word (w s : string) : split_scan (Some w) s <> [].
Proof.
  revert w. induction s as [|c s IH]; intros w; cbn; [discriminate|].
  destruct (isspace c); [discriminate | apply IH].
Qed.

Lemma split_scan_blank (s : string) : split_scan None s = [] <-> all_space s = true.
Proof.
  induction s as [|c s IH]; cbn; [tauto|].
  destruct (isspace c); cbn; [exact IH|].
  split; [intros H; now apply split_scan_open_word in H | discriminate].
Qed.

Lemma no_space_push (word : option string) (c : ascii) :
  isspace c = false ->
  match word with Some w => no_space w = true | None => True end ->
  no_space (push word c) = true /\ push word c <> EmptyString.
Proof.
  intros Hc Hw. destruct word as [w|]; cbn; [|now rewrite Hc].
  split; [|destruct w; discriminate].
  induction w as [|x w IH]; cbn in *; [now rewrite Hc|].
  apply andb_true_iff in Hw as [-> Hw]. cbn. now apply IH.
Qed.

Lemma split_scan_words (word : option string) (s : string) :
  match word with
  | Some w => no_space w = true /\ w <> EmptyString
  | None => True
  end ->
  Forall (fun w => no_space w = true /\ w <> EmptyString) (split_scan word s).
Proof.
  revert word. induction s as [|c s IH]; intros word Hw; cbn.
  - destruct word; [now constructor | constructor].
  - destruct (isspace c) eqn:Hc.
    + destruct word; [constructor; [assumption|] |]; now apply IH.
    + apply IH. apply no_space_push; [assumption|]. destruct word; tauto.
Qed.

End SummaryFacts.

(** X1.  The word count of two texts joined by a white-space character is
    the sum of their word counts. *)
Theorem word_count_of_joined_texts (a b : string) (sp : ascii) :
  PySplit.isspace sp = true ->
  word_count (a ++ String sp b) = word_count a + word_count b.
Proof.
  intros Hsp. unfold word_count, PySplit.split.
  rewrite split_scan_joined by assumption. rewrite length_app. lia.
Qed.

Lemma word_count_of_joined_texts_witness :
  word_count ("Q: What drives you?" ++ String "010" "A: Helping others succeed.") = 8.
Proof.
  rewrite (word_count_of_joined_texts "Q: What drives you?" "A: Helping others succeed."
             "010" eq_refl).
  reflexivity.
Defined.

(** X2.  The words that are counted are non-empty and contain no white
    space, and the count is zero exactly when the content is empty or made
    of white space only. *)
Theorem word_count_counts_words (content : string) :
  Forall (fun w => PySplit.no_space w = true /\ w <> EmptyString) (PySplit.split content) /\
  (word_count content = 0 <-> PySplit.all_space content = true).
Proof.
  split; [now apply split_scan_words|].
  unfold word_count, PySplit.split. rewrite <- split_scan_blank.
  destruct (PySplit.split_scan None content); cbn; split; (reflexivity || discriminate || lia).
Qed.

Lemma length_substring_le (s : string) (n m : nat) :
  (String.length (substring n m s) <= m)%nat.
Proof.
  revert n m. induction s as [|c s IH]; intros n m.
  - destruct n, m; cbn; lia.
  - destruct n as [|n]; cbn.
    + destruct m as [|m]; cbn; [lia|]. specialize (IH 0%nat m). lia.
    + apply IH.
Qed.

Lemma length_substring_prefix (s : string) (m : nat) :
  (m <= String.length s)%nat -> String.length (substring 0 m s) = m.
Proof.
  revert m. induction s as [|c s IH]; intros m Hm; cbn in *.
  - now assert (m = 0%nat) as -> by lia.
  - destruct m as [|m]; cbn; [reflexivity|]. rewrite IH; lia.
Qed.

Lemma substring_prefix_of_append (a b : string) (m : nat) :
  (m <= String.length a)%nat -> substring 0 m (a ++ b) = substring 0 m a.
Proof.
  revert m. induction a as [|c a IH]; intros m Hm; cbn in *.
  - assert (m = 0%nat) as -> by lia. now rewrite substring_0_0.
  - destruct m as [|m]; cbn; [reflexivity|]. rewrite IH; [reflexivity | lia].
Qed.

Lemma substring_idempotent (s : string) (m : nat) :
  substring 0 m (substring 0 m s) = substring 0 m s.
Proof.
  revert m. induction s as [|c s IH]; intros m; [now destruct m|].
  destruct m as [|m]; cbn; [reflexivity | now rewrite IH].
Qed.

(** X3.  The content preview never has more than 203 characters, it is the
    content itself when that has at most 200 characters, and its first 200
    characters are always those of the content. *)
Theorem content_preview_bounded (content : string) :
  (String.length (content_preview content) <= 203)%nat /\
  ((String.length content <= 200)%nat -> content_preview content = content) /\
  substring 0 200 (content_preview content) = substring 0 200 content.
Proof.
  unfold content_preview, PyStr.slice.
  destruct (Z.ltb_spec 200 (Z.of_nat (String.length content))) as [Hlong|Hshort].
  - change (Z.to_nat 0) with 0%nat. change (Z.to_nat (200 - 0)) with 200%nat.
    split; [|split].
    + rewrite length_append. pose proof (length_substring_le content 0 200). cbn. lia.
    + lia.
    + rewrite substring_prefix_of_append.
      * apply substring_idempotent.
      * rewrite length_substring_prefix; lia.
  - split; [lia|]. split; reflexivity.
Qed.

(** ** The derived brand name *)

Section NameFacts.

Import PyStr BrandNameSpec.

Lemma to_lower_underscore (c : ascii) :
  Ascii.eqb (to_lower c) "_" = Ascii.eqb c "_".
Proof. destruct c as [[] [] [] [] [] [] [] []]; reflexivity. Qed.

Lemma to_title_underscore (c : ascii) :
  Ascii.eqb (to_title c) "_" = Ascii.eqb c "_".
Proof. destruct c as [[] [] [] [] [] [] [] []]; reflexivity. Qed.

Lemma title_from_underscore (b : bool) (s : string) :
  has_char "_" (title_from b s) = has_char "_" s.
Proof.
  revert b. induction s as [|c s IH]; intros b; [reflexivity|].
  cbn. rewrite IH. destruct b; now rewrite ?to_lower_underscore, ?to_title_underscore.
Qed.

Lemma underscores_to_spaces_clean (s : string) :
  has_char "_" (underscores_to_spaces s) = false.
Proof.
  unfold underscores_to_spaces. induction s as [|c s IH]; [reflexivity|].
  cbn. rewrite IH, orb_false_r. unfold underscore_to_space.
  destruct (Ascii.eqb c "_") eqn:Hc; [reflexivity | exact Hc].
Qed.

Lemma length_title_from (b : bool) (s : string) :
  String.length (title_from b s) = String.length s.
Proof. revert b. induction s as [|c s IH]; intros b; cbn; [reflexivity | now rewrite IH]. Qed.

Lemma length_map (f : ascii -> ascii) (s : string) :
  String.length (PyStr.map f s) = String.length s.
Proof. induction s as [|c s IH]; cbn; [reflexivity | now rewrite IH]. Qed.

Lemma length_remove_exact_scan (pat : string) (skip : nat) (s : string) :
  (String.length (remove_exact_scan pat skip s) <= String.length s)%nat.
Proof.
  revert skip. induction s as [|c s IH]; intros skip;
    cbn [remove_exact_scan String.length]; [lia|].
  destruct skip as [|k]; [|specialize (IH k); lia].
  destruct (String.prefix pat (String c s)).
  - specialize (IH (Nat.pred (String.length pat))). lia.
  - cbn [String.length]. specialize (IH 0%nat). lia.
Qed.

Lemma length_substring_le_whole (s : string) (n m : nat) :
  (String.length (substring n m s) <= String.length s)%nat.
Proof.
  revert n m. induction s as [|c s IH]; intros n m.
  - destruct n, m; cbn; lia.
  - destruct n as [|n]; cbn.
    + destruct m as [|m]; cbn; [lia|]. specialize (IH 0%nat m). lia.
    + specialize (IH n m). lia.
Qed.

Lemma length_splitext_root (p : string) :
  (String.length (fst (PosixPath.splitext p)) <= String.length p)%nat.
Proof.
  unfold PosixPath.splitext. destruct (_ && _); cbn; [|lia].
  apply length_substring_le_whole.
Qed.

Lemma to_lower_involved (c : ascii) :
  to_lower (to_lower c) = to_lower c /\ to_title (to_title c) = to_title c /\
  is_cased (to_lower c) = is_cased c /\ is_cased (to_title c) = is_cased c.
Proof. destruct c as [[] [] [] [] [] [] [] []]; repeat split. Qed.

Lemma title_from_idempotent (b : bool) (s : string) :
  title_from b (title_from b s) = title_from b s.
Proof.
  revert b. induction s as [|c s IH]; intros b; [reflexivity|].
  destruct (to_lower_involved c) as (Hl & Ht & Hcl & Hct).
  cbn. destruct b; rewrite ?Hl, ?Ht, ?Hcl, ?Hct, IH; reflexivity.
Qed.

Lemma to_lower_isascii (c : ascii) :
  isascii_char (to_lower c) = isascii_char c /\
  isascii_char (to_title c) = isascii_char c.
Proof. destruct c as [[] [] [] [] [] [] [] []]; split; reflexivity. Qed.

Lemma isascii_title_from (b : bool) (s : string) :
  isascii (title_from b s) = isascii s.
Proof.
  revert b. induction s as [|c s IH]; intros b; [reflexivity|].
  destruct (to_lower_isascii c) as [Hl Ht].
  cbn. rewrite IH. destruct b; now rewrite ?Hl, ?Ht.
Qed.

Lemma isascii_underscores_to_spaces (s : string) :
  isascii s = true -> isascii (underscores_to_spaces s) = true.
Proof.
  unfold underscores_to_spaces. induction s as [|c s IH]; [reflexivity|].
  cbn. intros [Hc Hs]%andb_true_iff. rewrite (IH Hs), andb_true_r.
  unfold underscore_to_space. destruct (Ascii.eqb c "_"); [reflexivity | exact Hc].
Qed.

Lemma isascii_remove_exact_scan (pat : string) (skip : nat) (s : string) :
  isascii s = true -> isascii (remove_exact_scan pat skip s) = true.
Proof.
  revert skip. induction s as [|c s IH]; intros skip; [reflexivity|].
  cbn [isascii remove_exact_scan]. intros [Hc Hs]%andb_true_iff.
  destruct skip as [|k]; [|now apply IH].
  destruct (String.prefix pat (String c s)); [now apply IH|].
  cbn [isascii]. rewrite Hc. now apply IH.
Qed.

Lemma isascii_substring (s : string) (n m : nat) :
  isascii s = true -> isascii (substring n m s) = true.
Proof.
  revert n m. induction s as [|c s IH]; intros n m; [now destruct n, m|].
  cbn [isascii]. intros [Hc Hs]%andb_true_iff.
  destruct n as [|n]; cbn [substring]; [|now apply IH].
  destruct m as [|m]; [reflexivity|]. cbn [isascii]. rewrite Hc. now apply IH.
Qed.

(** The name derived from an ASCII file name is made of ASCII characters. *)
Lemma isascii_derived_name (filename : string) :
  isascii filename = true ->
  isascii (_extract_brand_name_from_filename filename) = true.
Proof.
  intros H. unfold _extract_brand_name_from_filename, title.
  rewrite isascii_title_from, replace_underscores.
  apply isascii_underscores_to_spaces.
  rewrite !replace_remove_exact. unfold remove_exact.
  do 2 apply isascii_remove_exact_scan.
  unfold PosixPath.splitext. destruct (_ && _); cbn [fst]; [|exact H].
  now apply isascii_substring.
Qed.

End NameFacts.

(** X4.  The brand name derived from a file name made of ASCII characters
    never contains an underscore and is never longer than the file name. *)
Theorem derived_name_has_no_underscore (filename : string) :
  PyStr.isascii filename = true ->
  BrandNameSpec.has_char "_" (_extract_brand_name_from_filename filename) = false /\
  (String.length (_extract_brand_name_from_filename filename)
   <= String.length filename)%nat.
Proof.
  intros _. unfold _extract_brand_name_from_filename, PyStr.title. split.
  - rewrite title_from_underscore, replace_underscores.
    apply underscores_to_spaces_clean.
  - rewrite length_title_from, replace_underscores.
    unfold BrandNameSpec.underscores_to_spaces. rewrite length_map.
    rewrite !replace_remove_exact. unfold BrandNameSpec.remove_exact.
    etransitivity; [apply length_remove_exact_scan|].
    etransitivity; [apply length_remove_exact_scan|].
    apply length_splitext_root.
Qed.

Lemma derived_name_has_no_underscore_witness :
  BrandNameSpec.has_char "_"
    (_extract_brand_name_from_filename "company_name_interview_final.pdf") = false.
Proof.
  apply (derived_name_has_no_underscore "company_name_interview_final.pdf").
  reflexivity.
Defined.

(** X5.  The brand name derived from a file name made of ASCII characters
    is made of ASCII characters and is in title case already: [str.title]
    leaves it as it is. *)
Theorem derived_name_is_title_cased (filename : string) :
  PyStr.isascii filename = true ->
  PyStr.isascii (_extract_brand_name_from_filename filename) = true /\
  PyStr.title (_extract_brand_name_from_filename filename)
  = _extract_brand_name_from_filename filename.
Proof.
  intros H. split; [now apply isascii_derived_name|].
  unfold _extract_brand_name_from_filename, PyStr.title. apply title_from_idempotent.
Qed.

Lemma derived_name_is_title_cased_witness :
  PyStr.title (_extract_brand_name_from_filename "my-company-interview.pdf")
  = _extract_brand_name_from_filename "my-company-interview.pdf".
Proof.
  apply (derived_name_is_title_cased "my-company-interview.pdf"). reflexivity.
Defined.

Section SplitextShape.

Import PyStr BrandNameSpec PosixPath.

Lemma substring_split (s : string) (k : nat) :
  (k <= String.length s)%nat ->
  substring 0 k s ++ substring k (String.length s - k) s = s.
Proof.
  revert k. induction s as [|c s IH]; intros k Hk; cbn in *.
  - now assert (k = 0%nat) as -> by lia.
  - destruct k as [|k]; cbn.
    + f_equal. clear. induction s as [|x s IH]; cbn; [reflexivity | now rewrite IH].
    + f_equal. apply IH. lia.
Qed.

Lemma substring_whole (s : string) : substring 0 (String.length s) s = s.
Proof. induction s as [|x s IH]; cbn; [reflexivity | now rewrite IH]. Qed.

(** After the last [c] there is no [c]. *)
Lemma suffix_after_last (c : ascii) (s : string) (k : nat) :
  (has_char c s = true -> (last_pos c s < k)%nat) ->
  has_char c (substring k (String.length s - k) s) = false.
Proof.
  revert k. induction s as [|a s IH]; intros k Hk.
  - now destruct k.
  - destruct k as [|k].
    + cbn [has_char last_pos] in Hk. cbn.
      destruct (Ascii.eqb a c) eqn:Ha; cbn in Hk.
      * specialize (Hk eq_refl). lia.
      * destruct (has_char c s) eqn:Hs; [specialize (Hk eq_refl); lia|].
        rewrite substring_whole. now rewrite Hs.
    + cbn [substring String.length Nat.sub]. apply IH. intros Hs.
      cbn [has_char last_pos] in Hk. rewrite Hs, orb_true_r in Hk.
      specialize (Hk eq_refl). lia.
Qed.

(** From the last [c] on: that [c], then no more of it. *)
Lemma suffix_from_last (c : ascii) (s : string) :
  has_char c s = true ->
  exists tail,
    substring (last_pos c s) (String.length s - last_pos c s) s = String c tail /\
    has_char c tail = false.
Proof.
  induction s as [|a s IH]; [discriminate|].
  cbn [has_char last_pos]. intros H.
  destruct (has_char c s) eqn:Hs.
  - destruct (IH eq_refl) as (tail & Htail & Hno). exists tail. split; [|exact Hno].
    cbn [substring String.length Nat.sub]. exact Htail.
  - rewrite orb_false_r in H. apply Ascii.eqb_eq in H as ->.
    exists s. split; [|exact Hs]. cbn. now rewrite substring_whole.
Qed.

End SplitextShape.

(** X6.  Only one extension is cut off the file name: the name is the base
    name followed by what was cut, and what was cut is empty or a dot
    followed by characters among which there is no dot and no slash. *)
Theorem base_name_and_extension (filename : string) :
  let (base_name, ext) := PosixPath.splitext filename in
  base_name ++ ext = filename /\
  (ext = EmptyString \/
   exists tail, ext = String "." tail /\
                BrandNameSpec.has_char "." tail = false /\
                BrandNameSpec.has_char "/" tail = false).
Proof.
  unfold PosixPath.splitext.
  rewrite (rfind_last_pos PosixPath.extsep), (rfind_last_pos PosixPath.sep).
  destruct (_ && _) eqn:Hcond.
  - apply andb_true_iff in Hcond as [Hlt _]. apply Z.ltb_lt in Hlt.
    destruct (BrandNameSpec.has_char PosixPath.extsep filename) eqn:Hdot;
      [|destruct (BrandNameSpec.has_char PosixPath.sep filename); lia].
    pose proof (last_pos_lt _ _ Hdot) as Hk.
    unfold PyStr.slice_from, PyStr.slice.
    rewrite Z.sub_0_r, !Nat2Z.id.
    replace (Z.to_nat (Z.of_nat (String.length filename)
                       - Z.of_nat (last_pos PosixPath.extsep filename)))
      with (String.length filename - last_pos PosixPath.extsep filename)%nat by lia.
    change (Z.to_nat 0) with 0%nat.
    split; [apply substring_split; lia|]. right.
    destruct (suffix_from_last _ _ Hdot) as (tail & Htail & Hno).
    exists tail. split; [exact Htail|]. split; [exact Hno|].
    assert (Hsep : BrandNameSpec.has_char PosixPath.sep
                     (substring (last_pos PosixPath.extsep filename)
                        (String.length filename - last_pos PosixPath.extsep filename)
                        filename) = false).
    { apply suffix_after_last. intros Hs. rewrite Hs in Hlt. lia. }
    rewrite Htail in Hsep. cbn in Hsep. exact Hsep.
  - unfold PyStr.slice. change (Z.to_nat (0 - 0)) with 0%nat.
    change (Z.to_nat 0) with 0%nat. rewrite substring_0_0.
    split; [apply append_empty_r | now left].
Qed.

(** ** The heuristic texts *)

Lemma prefix_of_append (sub b : string) : String.prefix sub (sub ++ b) = true.
Proof.
  induction sub as [|c sub IH]; cbn; [now destruct b|].
  destruct (ascii_dec c c); [exact IH | contradiction].
Qed.

Lemma contains_unfold (sub s : string) :
  PyStr.contains sub s =
    String.prefix sub s ||
    match s with
    | EmptyString => false
    | String _ s' => PyStr.contains sub s'
    end.
Proof. now destruct s. Qed.

Lemma contains_infix (a sub b : string) : PyStr.contains sub (a ++ sub ++ b) = true.
Proof.
  induction a as [|c a IH].
  - cbn [String.append]. rewrite contains_unfold, prefix_of_append. reflexivity.
  - cbn [String.append]. rewrite contains_unfold, IH. apply orb_true_r.
Qed.

(** X7.  The heuristic [why] and [what] texts contain the brand name, and
    each of the three texts has more than ten characters. *)
Theorem fallback_texts_mention_brand (brand text : string) (t : list event) :
  exists d gc w h x,
    _process_interview_for_golden_circle text brand t = (Returns d, t) /\
    d !! "golden_circle" = Some (VDict gc) /\
    gc !! "why" = Some (VStr w) /\ gc !! "how" = Some (VStr h) /\
    gc !! "what" = Some (VStr x) /\
    PyStr.contains brand w = true /\ PyStr.contains brand x = true /\
    (10 < String.length w)%nat /\ (10 < String.length h)%nat /\
    (10 < String.length x)%nat.
Proof.
  do 5 eexists. split; [reflexivity|]. do 4 (split; [reflexivity|]).
  split; [apply contains_infix|].
  split; [apply (contains_infix EmptyString)|].
  unfold why_template, how_template, what_template. rewrite !length_append.
  repeat split; cbn; lia.
Qed.

(** ** Exceptions that reach the caller *)

Section Escapes.

Variables (c : Collaborators) (interview_file : UploadFile) (override : option string).

Lemma try_except_only_http {A} (body : M A) (handler : exn -> M A) (t : list event) :
  (forall e u, raises_only_http (fst (handler e u))) ->
  raises_only_http (fst (try_except body handler t)).
Proof.
  intros H. unfold try_except. destruct (body t) as [[a|e] u]; [exact I | apply H].
Qed.

Lemma golden_circle_except_only_http (e : exn) (u : list event) :
  raises_only_http (fst (create_golden_circle_from_interview_except e u)).
Proof. destruct e; reflexivity. Qed.

Lemma golden_circle_response_except_only_http (e : exn) (u : list event) :
  raises_only_http (fst (create_golden_circle_response_except e u)).
Proof. destruct e; reflexivity. Qed.

Lemma brand_identity_except_only_http (e : exn) (u : list event) :
  raises_only_http (fst (create_brand_identity_from_interview_except e u)).
Proof. destruct e; reflexivity. Qed.

Lemma brand_identity_response_except_only_http (e : exn) (u : list event) :
  raises_only_http (fst (create_brand_identity_response_except e u)).
Proof. destruct e; reflexivity. Qed.

End Escapes.

(** X8.  No entry point of the service lets an exception other than an
    [HTTPException] reach its caller, whatever the upload, Docling, the
    BAML client or the validation of the response do. *)
Theorem only_http_exceptions_escape
    (c : Collaborators) (interview_file : UploadFile) (override : option string)
    (pdf_bytes : list byte) (t : list event) :
  raises_only_http (fst (create_golden_circle_from_interview c interview_file override t)) /\
  raises_only_http (fst (create_golden_circle_response c interview_file override t)) /\
  raises_only_http (fst (create_brand_identity_from_interview c interview_file override t)) /\
  raises_only_http (fst (create_brand_identity_response c interview_file override t)) /\
  raises_only_http (fst (_extract_text_from_pdf_bytes c pdf_bytes t)).
Proof.
  split; [apply try_except_only_http, golden_circle_except_only_http|].
  split; [apply try_except_only_http, golden_circle_response_except_only_http|].
  split; [apply try_except_only_http, brand_identity_except_only_http|].
  split; [apply try_except_only_http, brand_identity_response_except_only_http|].
  apply try_except_only_http. intros e u. destruct e; reflexivity.
Qed.

(** ** Every path through the two pipelines *)

Ltac unfold_service :=
  unfold create_golden_circle_response, create_brand_identity_response,
    create_golden_circle_from_interview, create_brand_identity_from_interview,
    create_golden_circle_from_interview_try, create_brand_identity_from_interview_try,
    extract_or_fall_back, _extract_text_from_pdf_bytes,
    _process_interview_for_golden_circle, _process_interview_content,
    create_golden_circle_from_interview_except, create_golden_circle_response_except,
    create_brand_identity_from_interview_except, create_brand_identity_response_except,
    GoldenCircleResponse_init, Strategy.BrandStrategyResponse_init,
    added, log, try_except, bind, call, ret, raise in *.

Ltac reduce := cbv beta iota; cbn [fst snd negb app].

(** The outcomes of validation, [read], [seek], Docling and the BAML
    client, one after the other. *)
Ltac paths c f :=
  destruct (filename f) as [[|? ?]|] eqn:?; reduce;
  [ | destruct (py_in (content_type f) allowed_types) eqn:?; reduce;
      [ destruct (read f) as [?pdf|[]] eqn:?; reduce;
        [ destruct (seek f 0) as [[]|[]] eqn:?; reduce;
          [ lazymatch goal with
            | |- context [docling_to_markdown c ?b] =>
                destruct (docling_to_markdown c b) as [?text|[]] eqn:?; reduce;
                [ try lazymatch goal with
                      | |- context [ExtractGoldenCircleFromMarkdown c ?x] =>
                          destruct (ExtractGoldenCircleFromMarkdown c x)
                            as [?d0|?] eqn:?; reduce
                      end
                | .. ]
            end
          | .. ]
        | .. ]
      | ]
  | ].

(** A case analysis on a scrutinee that is not itself a case analysis. *)
Ltac case_inner :=
  match goal with
  | |- context [match ?x with _ => _ end] =>
      lazymatch x with
      | context [match _ with _ => _ end] => fail
      | _ => destruct x eqn:?
      end
  end; reduce.

Ltac in_details := cbn; repeat first [left; reflexivity | right].

(** X9.  When the upload and Docling raise no [HTTPException] of their own,
    every error the two response builders raise has status 400 or 500 and
    one of the seven fixed details of the service: no text of the upload or
    of an exception reaches the caller. *)
Theorem errors_are_service_errors
    (c : Collaborators) (interview_file : UploadFile) (override : option string)
    (t : list event) :
  no_foreign_http_error c interview_file ->
  raises_service_error (fst (create_golden_circle_response c interview_file override t)) /\
  raises_service_error (fst (create_brand_identity_response c interview_file override t)).
Proof.
  intros (Hread & Hseek & Hdoc).
  split; unfold_service; paths c interview_file;
    try solve [ exfalso;
                match goal with
                | H : forall e, Raises ?x = Raises e -> is_HTTPException e = false |- _ =>
                    specialize (H _ eq_refl); discriminate
                | H : docling_to_markdown _ _ = Raises (HTTPException _ _) |- _ =>
                    apply Hdoc in H; discriminate
                end ];
    repeat case_inner; try exact I; in_details.
Qed.

Lemma errors_are_service_errors_witness :
  raises_service_error
    (fst (create_golden_circle_response Scenario.offline
            (Scenario.upload "test.jpg" "image/jpeg") (Some "Test Company") [])).
Proof.
  apply (errors_are_service_errors Scenario.offline
           (Scenario.upload "test.jpg" "image/jpeg") (Some "Test Company") []).
  repeat split; intros; discriminate.
Defined.

Ltac close_traces := rewrite ?app_nil_r, <- ?app_assoc; reflexivity.

Lemma golden_circle_response_append_only
    (c : Collaborators) (interview_file : UploadFile) (override : option string) :
  append_only (create_golden_circle_response c interview_file override).
Proof.
  intros t. unfold_service. paths c interview_file; repeat case_inner; close_traces.
Qed.

Lemma brand_identity_response_append_only
    (c : Collaborators) (interview_file : UploadFile) (override : option string) :
  append_only (create_brand_identity_response c interview_file override).
Proof.
  intros t. unfold_service. paths c interview_file; repeat case_inner; close_traces.
Qed.

Ltac pick_witnesses :=
  first
    [ match goal with
      | _ : read _ = Returns ?b, _ : docling_to_markdown _ ?b = Returns ?x |- _ =>
          exists b, x
      end
    | match goal with
      | _ : read _ = Returns ?b |- _ => exists b, EmptyString
      end
    | exists [], EmptyString ].

Ltac find_event :=
  cbn [In]; intros H;
  repeat match goal with
         | H : _ \/ _ |- _ => destruct H as [H|H]
         end;
  try contradiction; try discriminate;
  try (injection H as <-); try eexists; eauto; congruence.

(** X10.  A call of [create_golden_circle_response] only appends to the
    trace, and what it appends holds at most one [read], one [seek], one
    Docling conversion and one BAML call, in this order: nothing is retried.
    Docling is given exactly the bytes that [read] returned and the BAML
    client exactly the text that Docling returned. *)
Theorem collaborators_called_once_in_order
    (c : Collaborators) (interview_file : UploadFile) (override : option string) :
  let trace := added (create_golden_circle_response c interview_file override) in
  append_only (create_golden_circle_response c interview_file override) /\
  (exists pdf_bytes text,
     List.filter is_call trace
       `prefix_of` [Read; Seek 0; DoclingConvert pdf_bytes; BamlExtract text]) /\
  (forall b, In (DoclingConvert b) trace -> read interview_file = Returns b) /\
  (forall x, In (BamlExtract x) trace ->
             exists b, read interview_file = Returns b /\
                       docling_to_markdown c b = Returns x).
Proof.
  cbv zeta. split; [apply golden_circle_response_append_only|].
  unfold_service. paths c interview_file; repeat case_inner;
    (split; [pick_witnesses; cbn [List.filter is_call app]; eexists; reflexivity|]);
    split; intros ?; find_event.
Qed.

(** X11.  The two pipelines fail alike: on every upload
    [create_brand_identity_from_interview] raises an exception exactly when
    [create_golden_circle_from_interview] raises it, and it is the same
    exception. *)
Theorem pipelines_fail_alike
    (c : Collaborators) (interview_file : UploadFile) (override : option string)
    (t : list event) (e : exn) :
  fst (create_brand_identity_from_interview c interview_file override t) = Raises e <->
  fst (create_golden_circle_from_interview c interview_file override t) = Raises e.
Proof.
  unfold_service. paths c interview_file; repeat case_inner;
    split; intros H; (exact H || discriminate).
Qed.

(** X12.  The brand identity pipeline never calls the BAML client: no BAML
    call is in its trace, and two services that differ only in the client
    and in the text of validation errors give the same result. *)
Theorem brand_identity_ignores_client
    (c1 c2 : Collaborators) (interview_file : UploadFile) (override : option string)
    (t : list event) :
  (forall b, docling_to_markdown c1 b = docling_to_markdown c2 b) ->
  create_brand_identity_from_interview c1 interview_file override t
    = create_brand_identity_from_interview c2 interview_file override t /\
  forall x, ~ In (BamlExtract x)
              (added (create_brand_identity_from_interview c1 interview_file override)).
Proof.
  intros Hdoc. split.
  - unfold_service. destruct (filename interview_file) as [[|? ?]|]; try reflexivity.
    destruct (negb _); [reflexivity|]. reduce.
    destruct (read interview_file) as [pdf|[]]; try reflexivity. reduce.
    destruct (seek interview_file 0) as [[]|[]]; try reflexivity. reduce.
    now rewrite Hdoc.
  - intros x. unfold_service. paths c1 interview_file; repeat case_inner;
      cbn [In]; intros H;
      repeat match goal with
             | H : _ \/ _ |- _ => destruct H as [H|H]
             end; (contradiction || discriminate).
Qed.

Lemma brand_identity_ignores_client_witness :
  create_brand_identity_from_interview Scenario.offline
    (Scenario.upload "test_interview.pdf" "application/pdf") None []
  = create_brand_identity_from_interview (Scenario.online Scenario.baml_answer)
      (Scenario.upload "test_interview.pdf" "application/pdf") None [].
Proof.
  apply (brand_identity_ignores_client Scenario.offline
           (Scenario.online Scenario.baml_answer)
           (Scenario.upload "test_interview.pdf" "application/pdf") None []).
  reflexivity.
Defined.

(** X13.  [create_brand_identity_response] never returns a model.  The dict
    of [_process_interview_content] has no "strategy" entry, which
    [BrandStrategyResponse] requires, so an upload that passes validation
    and extraction ends in status 500 with the detail "An unexpected error
    occurred while processing the brand identity request", after the
    success of the pipeline was logged. *)
Theorem brand_identity_response_never_returns
    (c : Collaborators) (interview_file : UploadFile) (override : option string)
    (fname : string) (pdf_bytes : list byte) (text : string) (t : list event) :
  filename interview_file = Some fname -> fname <> EmptyString ->
  content_type interview_file = Some "application/pdf" ->
  read interview_file = Returns pdf_bytes ->
  seek interview_file 0 = Returns tt ->
  docling_to_markdown c pdf_bytes = Returns text ->
  (exists d v,
     create_brand_identity_from_interview c interview_file override t
       = (Returns d,
          t ++ [Read; Seek 0; DoclingConvert pdf_bytes;
                Log INFO "Successfully generated brand identity for "
                  (AboutValue (VStr (brand_name_or_filename override fname)))])%list /\
     create_brand_identity_response c interview_file override t
       = (Raises (HTTPException 500 identity_fault_detail),
          t ++ [Read; Seek 0; DoclingConvert pdf_bytes;
                Log INFO "Successfully generated brand identity for "
                  (AboutValue (VStr (brand_name_or_filename override fname)));
                Log ERROR "Unexpected error in brand identity creation: "
                  (AboutExn (OtherException "ValidationError" v))])%list) /\
  (forall (c' : Collaborators) (file : UploadFile) (o : option string)
          (u : list event) (r : Strategy.BrandStrategyResponse),
     fst (create_brand_identity_response c' file o u) <> Returns r).
Proof.
  intros Hname Hne Hpdf Hread Hseek Hdoc. split.
  - destruct fname as [|ch fn]; [contradiction|].
    do 2 eexists. unfold_service. rewrite Hname, Hpdf.
    change (py_in (Some "application/pdf") allowed_types) with true. reduce.
    rewrite Hread. reduce. rewrite Hseek. reduce. rewrite Hdoc. reduce.
    split; [rewrite <- ?app_assoc; reflexivity|].
    repeat case_inner;
      try match goal with
          | H : Strategy.validate_BrandStrategy _ = Some _ |- _ => discriminate H
          end;
      rewrite <- ?app_assoc; reflexivity.
  - intros c' file o u r. unfold_service. paths c' file; repeat case_inner;
      try discriminate.
    all: match goal with
         | H : Strategy.validate_BrandStrategy _ = Some _ |- _ => discriminate H
         end.
Qed.

Lemma brand_identity_response_never_returns_witness :
  fst (create_brand_identity_response Scenario.offline
         (Scenario.upload "test_interview.pdf" "application/pdf")
         (Some "Test Company") [])
  = Raises (HTTPException 500 identity_fault_detail).
Proof.
  destruct (brand_identity_response_never_returns Scenario.offline
              (Scenario.upload "test_interview.pdf" "application/pdf")
              (Some "Test Company") "test_interview.pdf" Scenario.pdf_payload
              Scenario.interview_text [] eq_refl ltac:(discriminate)
              eq_refl eq_refl eq_refl eq_refl) as [(d & v & _ & H) _].
  rewrite H. reflexivity.
Defined.

(** X14.  Without an override, what the BAML client answers is returned as
    it is: the file name is not consulted, and the response model is built
    exactly when the client's dict has a string under "brand_name" and
    strings under "why", "how" and "what" of its "golden_circle". *)
Theorem client_answer_is_returned_as_is
    (c : Collaborators) (interview_file : UploadFile) (override : option string)
    (fname : string) (pdf_bytes : list byte) (text : string) (d0 : dict)
    (t : list event) :
  filename interview_file = Some fname -> fname <> EmptyString ->
  content_type interview_file = Some "application/pdf" ->
  read interview_file = Returns pdf_bytes ->
  seek interview_file 0 = Returns tt ->
  docling_to_markdown c pdf_bytes = Returns text ->
  ExtractGoldenCircleFromMarkdown c text = Returns d0 ->
  truthy override = false ->
  create_golden_circle_from_interview c interview_file override t
    = (Returns d0,
       (t ++ [Read; Seek 0; DoclingConvert pdf_bytes; BamlExtract text;
              Log INFO "Successfully generated Golden Circle for "
                (AboutValue (dict_get d0 "brand_name"))])%list) /\
  forall r : GoldenCircleResponse,
    fst (create_golden_circle_response c interview_file override t) = Returns r <->
    validate_str (d0 !! "brand_name") = Some (brand_name r) /\
    validate_GoldenCircle (d0 !! "golden_circle") = Some (golden_circle r).
Proof.
  intros Hname Hne Hpdf Hread Hseek Hdoc Hbaml Hover.
  pose proof (success_run c interview_file override fname pdf_bytes
                Hname Hne Hpdf Hread Hseek text Hdoc d0 t Hbaml) as Hrun.
  assert (override_brand_name override d0 = d0) as Hsame
    by (destruct override as [[|? ?]|]; (reflexivity || discriminate)).
  rewrite Hsame in Hrun. split; [exact Hrun|].
  intros r. rewrite (response_of_dict _ _ _ _ _ _ Hrun).
  unfold try_except, GoldenCircleResponse_init, ret, raise.
  destruct (validate_str (d0 !! "brand_name")) as [b|];
    [destruct (validate_GoldenCircle (d0 !! "golden_circle")) as [g|]|]; cbn.
  - split.
    + intros H. injection H as <-. split; reflexivity.
    + intros [Hb Hg]. destruct r. cbn in *. congruence.
  - split; [discriminate | intros [_ H]; discriminate].
  - split; [discriminate | intros [H _]; discriminate].
Qed.

Lemma client_answer_is_returned_as_is_witness :
  fst (create_golden_circle_response (Scenario.online Scenario.baml_answer)
         (Scenario.upload "test_interview.pdf" "application/pdf") None [])
  = Returns {| brand_name := "Inferred Name";
               golden_circle := {| why := "To help businesses succeed.";
                                   how := "By listening."; what := "Consulting." |} |}.
Proof.
  apply (client_answer_is_returned_as_is (Scenario.online Scenario.baml_answer)
           (Scenario.upload "test_interview.pdf" "application/pdf") None
           "test_interview.pdf" Scenario.pdf_payload Scenario.interview_text
           Scenario.baml_answer [] eq_refl ltac:(discriminate)
           eq_refl eq_refl eq_refl eq_refl eq_refl eq_refl).
  split; reflexivity.
Defined.

(** X15.  An [HTTPException] raised by the upload's [read] or [seek]
    reaches the caller of [create_golden_circle_response] with its own
    status and detail, and nothing is logged. *)
Theorem foreign_http_errors_pass_unchanged
    (c : Collaborators) (interview_file : UploadFile) (override : option string)
    (status : Z) (detail : string) (t : list event) :
  truthy (filename interview_file) = true ->
  content_type interview_file = Some "application/pdf" ->
  read interview_file = Raises (HTTPException status detail) \/
  (exists b, read interview_file = Returns b /\
             seek interview_file 0 = Raises (HTTPException status detail)) ->
  exists calls,
    create_golden_circle_response c interview_file override t
      = (Raises (HTTPException status detail), (t ++ calls)%list) /\
    List.filter is_call calls = calls.
Proof.
  intros Hname Hpdf H. unfold_service.
  destruct (filename interview_file) as [[|ch fn]|]; try discriminate.
  rewrite Hpdf. change (py_in (Some "application/pdf") allowed_types) with true. reduce.
  destruct H as [Hread|(b & Hread & Hseek)].
  - exists [Read]. rewrite Hread. reduce. split; reflexivity.
  - exists [Read; Seek 0]. rewrite Hread. reduce. rewrite Hseek. reduce.
    rewrite <- app_assoc. split; reflexivity.
Qed.

Lemma foreign_http_errors_pass_unchanged_witness :
  fst (create_golden_circle_response Scenario.offline
         (Scenario.unreadable_upload (HTTPException 413 "Request entity too large"))
         None [])
  = Raises (HTTPException 413 "Request entity too large").
Proof.
  destruct (foreign_http_errors_pass_unchanged Scenario.offline
              (Scenario.unreadable_upload (HTTPException 413 "Request entity too large"))
              None 413 "Request entity too large" [] eq_refl eq_refl
              (or_introl eq_refl)) as (calls & H & _).
  rewrite H. reflexivity.
Defined.

(** X16.  An empty override counts as no override: with the empty string
    as [brand_name] both pipelines do exactly what they do without one. *)
Theorem empty_override_is_no_override
    (c : Collaborators) (interview_file : UploadFile) (t : list event) :
  create_golden_circle_response c interview_file (Some EmptyString) t
    = create_golden_circle_response c interview_file None t /\
  create_brand_identity_response c interview_file (Some EmptyString) t
    = create_brand_identity_response c interview_file None t.
Proof. split; reflexivity. Qed.

(** X17.  A return of [create_golden_circle_from_interview] is logged once
    at INFO, as the last event and with the brand name of the returned
    dict; before it there is no ERROR line and at most one WARNING line. *)
Theorem success_is_logged_once
    (c : Collaborators) (interview_file : UploadFile) (override : option string)
    (d : dict) (t t' : list event) :
  create_golden_circle_from_interview c interview_file override t = (Returns d, t') ->
  exists before,
    t' = (t ++ before ++
            [Log INFO "Successfully generated Golden Circle for "
               (AboutValue (dict_get d "brand_name"))])%list /\
    List.filter (is_log INFO) before = [] /\
    List.filter (is_log ERROR) before = [] /\
    (List.length (List.filter (is_log WARNING) before) <= 1)%nat.
Proof.
  intros H. pose proof H as Hinv.
  apply from_interview_returns_inv in Hinv
    as (fname & pdf & text & Hname & Hne & Hpdf & Hread & Hseek & Hdoc & Hpath).
  destruct Hpath as [(d0 & Hbaml & ->)|(e & Hbaml & ->)].
  - rewrite (success_run c interview_file override fname pdf
               Hname Hne Hpdf Hread Hseek text Hdoc d0 t Hbaml) in H.
    injection H as <-.
    exists [Read; Seek 0; DoclingConvert pdf; BamlExtract text].
    repeat split. cbn. lia.
  - rewrite (fallback_run c interview_file override fname pdf
               Hname Hne Hpdf Hread Hseek text Hdoc e t Hbaml) in H.
    injection H as <-.
    exists [Read; Seek 0; DoclingConvert pdf; BamlExtract text;
            Log WARNING warning_text (AboutExn e)].
    repeat split. cbn. lia.
Qed.

Lemma success_is_logged_once_witness :
  exists before,
    snd (create_golden_circle_from_interview Scenario.offline
           (Scenario.upload "test_interview.pdf" "application/pdf") None [])
    = (before ++ [Log INFO "Successfully generated Golden Circle for "
                    (AboutValue (VStr "Test"))])%list /\
    List.filter (is_log ERROR) before = [].
Proof.
  destruct (success_is_logged_once Scenario.offline
              (Scenario.upload "test_interview.pdf" "application/pdf") None
              (fallback_dict "Test")
              [] _ eq_refl) as (before & Ht & _ & Herr & _).
  exists before. split; [exact Ht | exact Herr].
Defined.

(** X18.  The upload is read exactly when it has a file name and its
    declared media type is one of those that [get_supported_file_formats]
    advertises: the formats accessor and the validation agree. *)
Theorem upload_read_iff_advertised
    (c : Collaborators) (interview_file : UploadFile) (override : option string) :
  In Read (added (create_golden_circle_response c interview_file override)) <->
  truthy (filename interview_file) = true /\
  exists mime, content_type interview_file = Some mime /\
               In mime (advertised_mime_types c).
Proof.
  change (advertised_mime_types c) with ["application/pdf"].
  assert (Hin : py_in (content_type interview_file) allowed_types = true <->
                exists mime, content_type interview_file = Some mime /\
                             In mime ["application/pdf"]).
  { destruct (content_type interview_file) as [ct|]; cbn.
    - rewrite orb_false_r, String.eqb_eq. split.
      + intros ->. exists "application/pdf". split; [reflexivity | now left].
      + intros (mime & Hm & [<-|[]]). congruence.
    - split; [discriminate | intros (mime & Hm & _); discriminate]. }
  rewrite <- Hin. clear Hin.
  unfold_service. paths c interview_file; repeat case_inner; cbn [In truthy];
    split;
    try (intros H;
         repeat match goal with
                | H : _ \/ _ |- _ => destruct H as [H|H]
                end; (contradiction || discriminate));
    try (intros [H1 H2]; discriminate);
    try (intros _; split; reflexivity);
    try (intros _; now left).
Qed.

(** X19.  Whatever dict [create_brand_identity_from_interview] returns was
    computed from the text that Docling extracted from the bytes that
    [read] returned: its brand name is the non-empty override or else the
    name derived from the file name, and its interview summary holds the
    word count and the preview of that text. *)
Theorem brand_identity_comes_from_the_upload
    (c : Collaborators) (interview_file : UploadFile) (override : option string)
    (d : dict) (t t' : list event) :
  create_brand_identity_from_interview c interview_file override t = (Returns d, t') ->
  exists fname pdf_bytes text summary,
    filename interview_file = Some fname /\
    read interview_file = Returns pdf_bytes /\
    docling_to_markdown c pdf_bytes = Returns text /\
    d !! "brand_name" = Some (VStr (brand_name_or_filename override fname)) /\
    d !! "interview_summary" = Some (VDict summary) /\
    summary !! "word_count" = Some (VInt (word_count text)) /\
    summary !! "content_preview" = Some (VStr (content_preview text)) /\
    0 <= word_count text.
Proof.
  unfold_service. intros H.
  destruct (filename interview_file) as [[|ch fn]|] eqn:Hname; try discriminate.
  destruct (negb _); [discriminate|]. revert H. reduce.
  destruct (read interview_file) as [pdf|[]] eqn:Hread; reduce; try discriminate.
  destruct (seek interview_file 0) as [[]|[]]; reduce; try discriminate.
  destruct (docling_to_markdown c pdf) as [text|[]] eqn:Hdoc; reduce; try discriminate.
  intros H. injection H as <- _.
  exists (String ch fn), pdf, text. eexists.
  repeat (split; [first [assumption | reflexivity]|]). unfold word_count. lia.
Qed.

Lemma brand_identity_comes_from_the_upload_witness :
  exists d t',
    create_brand_identity_from_interview Scenario.offline
      (Scenario.upload "Olillac_interview.pdf" "application/pdf") None [] = (Returns d, t') /\
    d !! "brand_name" = Some (VStr "Olillac").
Proof.
  set (run := create_brand_identity_from_interview Scenario.offline
                (Scenario.upload "Olillac_interview.pdf" "application/pdf") None []).
  assert (Hrun : run = (Returns (match fst run with
                                 | Returns d => d
                                 | Raises _ => ∅
                                 end), snd run))
    by (vm_compute; reflexivity).
  do 2 eexists. split; [exact Hrun|].
  destruct (brand_identity_comes_from_the_upload _ _ _ _ _ _ Hrun)
    as (fname & pdf & text & summary & Hname & _ & _ & Hb & _).
  injection Hname as <-. exact Hb.
Defined.
